(** * Signature verification of the signing playground

    A shallow embedding of the [verify] closure of the "Unified Verification
    Effect" in [frontend/src/app/sign/page.tsx] (lines 462-702), followed by
    the properties of it that the specification states.

    Conventions of the embedding.
    - A JavaScript string is a [string] of bytes, the UTF-8 encoding of
      its text; [verify] only compares, slices and measures strings of
      ASCII text (hex, base58, addresses), and [trim] strips the white
      space of ECMAScript in its UTF-8 encoding.
    - A [Uint8Array] is a [list byte].
    - A JavaScript exception is [Throw msg], [msg] being the [message] of
      the [Error] object; [try]/[catch] is [try_catch].
    - Calls of [setVerificationResult] and calls into the cryptographic
      packages are recorded, in program order, in a trace of events.
    - The cryptographic packages (ethers, tweetnacl, bitcoinjs-message,
      near-api-js, @polkadot/util-crypto, @solana/web3.js, @cosmjs/encoding)
      are not part of the repository; their entry points are the fields of
      the record [Lib].  The two hex helpers of ethers, the base58
      decoder and the base64 codec are plain codecs and are written out. *)

From Stdlib Require Import Strings.String Strings.Ascii Strings.Byte Lists.List ZArith Lia Bool.
From Stdlib Require Import DecimalString.
Import ListNotations.

Local Open Scope list_scope.
Local Open Scope string_scope.

Definition bytes := list byte.

(** ** Exceptions and the event trace *)

Inductive Result (A : Type) : Type :=
| Ok (a : A)
| Throw (msg : string).

Arguments Ok {A} a.
Arguments Throw {A} msg.

Module Js.

(** JavaScript built-ins used by the page, on byte strings. *)

Definition is_empty (s : string) : bool :=
  match s with EmptyString => true | String _ _ => false end.

(** Truthiness of a value of type [string | undefined]. *)
Definition truthy (o : option string) : bool :=
  match o with
  | Some s => negb (is_empty s)
  | None => false
  end.

(** [a || b] on [string | undefined]. *)
Definition or_else (a b : option string) : option string :=
  if truthy a then a else b.

(** [a ?? b]. *)
Definition nullish {A : Type} (a b : option A) : option A :=
  match a with Some _ => a | None => b end.

(** [s.startsWith(p)]. *)
Definition startsWith (p s : string) : bool := String.prefix p s.

(** [s.slice(n)] for [0 <= n]. *)
Fixpoint slice (n : nat) (s : string) : string :=
  match n, s with
  | O, _ => s
  | S n', String _ s' => slice n' s'
  | S _, EmptyString => EmptyString
  end.

(** [s.replace(p, '')] with a string pattern: the first occurrence of [p]
    is removed, the rest is kept. *)
Fixpoint remove_first (p s : string) : string :=
  if String.prefix p s then slice (String.length p) s
  else match s with
       | EmptyString => EmptyString
       | String c s' => String c (remove_first p s')
       end.

(** [s.includes(c)] for a one-character pattern. *)
Fixpoint includes_char (c : ascii) (s : string) : bool :=
  match s with
  | EmptyString => false
  | String d s' => if Ascii.eqb c d then true else includes_char c s'
  end.

Definition lower_char (c : ascii) : ascii :=
  let n := nat_of_ascii c in
  if andb (Nat.leb 65 n) (Nat.leb n 90) then ascii_of_nat (n + 32) else c.

(** [s.toLowerCase()] on ASCII text. *)
Fixpoint toLowerCase (s : string) : string :=
  match s with
  | EmptyString => EmptyString
  | String c s' => String (lower_char c) (toLowerCase s')
  end.

Definition is_hex_char (c : ascii) : bool :=
  let n := nat_of_ascii c in
  orb (andb (Nat.leb 48 n) (Nat.leb n 57))
      (orb (andb (Nat.leb 97 n) (Nat.leb n 102))
           (andb (Nat.leb 65 n) (Nat.leb n 70))).

Fixpoint all_hex (s : string) : bool :=
  match s with
  | EmptyString => true
  | String c s' => andb (is_hex_char c) (all_hex s')
  end.

(** [/^[0-9a-fA-F]+$/.test(s)]. *)
Definition test_hex_plus (s : string) : bool :=
  andb (negb (is_empty s)) (all_hex s).

(** [/^[0-9a-fA-F]{64}$/.test(s)]. *)
Definition test_hex_64 (s : string) : bool :=
  andb (Nat.eqb (String.length s) 64) (all_hex s).

(** Template-literal rendering of a [number | undefined] holding an
    integer. *)
Definition show_number (v : option Z) : string :=
  match v with
  | Some z => NilZero.string_of_int (Z.to_int z)
  | None => "undefined"
  end.

(** [new TextEncoder().encode(s)]: the bytes of the text. *)
Definition TextEncoder_encode (s : string) : bytes := list_byte_of_string s.

End Js.

(** ** Codecs *)

Module Hex.

Definition digit_value (c : ascii) : option N :=
  let n := N_of_ascii c in
  if andb (N.leb 48 n) (N.leb n 57) then Some (n - 48)%N
  else if andb (N.leb 97 n) (N.leb n 102) then Some (n - 87)%N
  else if andb (N.leb 65 n) (N.leb n 70) then Some (n - 55)%N
  else None.

Definition byte_of_N (n : N) : byte :=
  match Byte.of_N n with Some b => b | None => x00 end.

(** Pairs of hex digits, most significant nibble first; [None] on an odd
    length or on a character that is not a hex digit. *)
Fixpoint decode (s : string) : option bytes :=
  match s with
  | EmptyString => Some []
  | String a (String b rest) =>
      match digit_value a, digit_value b, decode rest with
      | Some h, Some l, Some bs => Some (byte_of_N (16 * h + l) :: bs)
      | _, _, _ => None
      end
  | String _ EmptyString => None
  end.

(** The strings matched by [/^0x(?:[0-9a-f][0-9a-f])*$/i], decoded. *)
Definition decode_0x (s : string) : option bytes :=
  match s with
  | String z (String x rest) =>
      if andb (Ascii.eqb z "0") (orb (Ascii.eqb x "x") (Ascii.eqb x "X"))
      then decode rest else None
  | _ => None
  end.

Definition digit_char (n : N) : ascii :=
  if N.ltb n 10 then ascii_of_N (48 + n) else ascii_of_N (87 + n).

Fixpoint encode (bs : bytes) : string :=
  match bs with
  | [] => EmptyString
  | b :: bs' =>
      let n := Byte.to_N b in
      String (digit_char (n / 16)) (String (digit_char (n mod 16)) (encode bs'))
  end.

(** [ethers.hexlify]: a [0x] prefix and lower-case digits. *)
Definition hexlify (bs : bytes) : string := "0x" ++ encode bs.

End Hex.

Module Bs58.

Definition ALPHABET : string :=
  "123456789ABCDEFGHJKLMNPQRSTUVWXYZabcdefghijkmnopqrstuvwxyz".

Fixpoint index_from (i : N) (c : ascii) (alphabet : string) : option N :=
  match alphabet with
  | EmptyString => None
  | String d rest =>
      if Ascii.eqb c d then Some i else index_from (N.succ i) c rest
  end.

Definition BASE_MAP (c : ascii) : option N := index_from 0 c ALPHABET.

(** One round of the inner loop of the decoder: the base-256 number, least
    significant byte first, is multiplied by 58 and [carry] is added. *)
Fixpoint muladd (b256 : list N) (carry : N) : list N :=
  match b256 with
  | [] => if N.eqb carry 0 then [] else [carry]
  | d :: ds =>
      let t := (carry + 58 * d)%N in
      (t mod 256)%N :: muladd ds (t / 256)%N
  end.

Fixpoint digits (s : string) (b256 : list N) : option (list N) :=
  match s with
  | EmptyString => Some b256
  | String c rest =>
      match BASE_MAP c with
      | Some v => digits rest (muladd b256 v)
      | None => None
      end
  end.

(** The leading ['1'] characters, each of which stands for a zero byte. *)
Fixpoint leaders (s : string) : nat * string :=
  match s with
  | String c rest =>
      if Ascii.eqb c "1" then let (n, r) := leaders rest in (S n, r)
      else (O, s)
  | EmptyString => (O, s)
  end.

(** [bs58.decode]: throws on a character outside the alphabet. *)
Definition decode (s : string) : Result bytes :=
  let (zeroes, rest) := leaders s in
  match digits rest [] with
  | Some b256 => Ok (repeat x00 zeroes ++ map Hex.byte_of_N (rev b256))%list
  | None => Throw "Non-base58 character"
  end.

End Bs58.

(** ** Data of the page *)

(** [ChainInfo.type] of [lib/chains.ts]. *)
Inductive ChainType : Type := evm | btc | sol | cosmos | near | dot.

(** [SignType]: ['message' | 'typed-data' | 'transaction' | 'delegate-action']. *)
Inductive SignType : Type := message_t | typed_data | transaction | delegate_action.

Inductive Status : Type := pending | verified | failed.

(** The state object given to [setVerificationResult].  Its field [message]
    is called [explanation] here, [message] being the signed text. *)
Record VerificationResult : Type := mkVerificationResult {
  status : Status;
  explanation : option string
}.

(** The [signature] field of a signing result: a string, or an object
    that may nest the string and the components. *)
Inductive SignatureField : Type :=
| SigString (signature : string)
| SigObject (signature r s : option string) (v : option Z).

Module SignResult.
Record t : Type := mk {
  signature : option SignatureField;
  r : option string;
  s : option string;
  v : option Z;
  signedTransaction : option string
}.
End SignResult.

Module Wallet.
Record t : Type := mk {
  address : string;
  publicKey : option string
}.
End Wallet.

(** The variables the closure [verify] reads. *)
Record Env : Type := mkEnv {
  result : SignResult.t;
  chain : ChainType;
  selectedWalletData : Wallet.t;
  signType : SignType;
  message : string;
  typedData : string;
  encodedByHex : bool
}.

(** An [ethers.Signature] object. *)
Record EthSignature : Type := mkEthSignature {
  sig_r : string;
  sig_s : string;
  sig_v : Z
}.

(** The local variable [signature : string | ethers.Signature]. *)
Inductive SignatureLike : Type :=
| SigHex (serialized : string)
| SigParts (sig : EthSignature).

(** A NEAR [PublicKey] object. *)
Record NearPublicKey : Type := mkNearPublicKey {
  keyType : N;
  data : bytes
}.

(** ** The packages the page imports *)

Record Lib : Type := mkLib {
  (** [ethers.Signature.from({ r, s, v })] *)
  ethers_Signature_from : string -> string -> Z -> Result EthSignature;
  (** [ethers.verifyMessage(message, signature)]: the recovered address *)
  ethers_verifyMessage : string -> SignatureLike -> Result string;
  (** [JSON.parse(typedData)] and then [ethers.verifyTypedData] on the
      domain, the types and the message of the parsed document *)
  ethers_verifyTypedData : string -> SignatureLike -> Result string;
  (** the message of the error [ethers.getBytes] throws on its argument *)
  ethers_invalid_BytesLike : string -> string;
  (** the SHA-256 digest behind [ethers.sha256] *)
  sha256_digest : bytes -> bytes;
  (** [Buffer.from(s, 'hex')] *)
  Buffer_from_hex : string -> bytes;
  (** [new web3.PublicKey(buffer).toBytes()] *)
  web3_PublicKey_of_buffer : bytes -> Result bytes;
  (** [new web3.PublicKey(base58).toBytes()] *)
  web3_PublicKey_of_string : string -> Result bytes;
  (** [nacl.sign.detached.verify(msg, sig, publicKey)] *)
  nacl_sign_detached_verify : bytes -> bytes -> bytes -> Result bool;
  (** [bs58.encode] *)
  bs58_encode : bytes -> string;
  (** [bitcoinMessage.verify(msg, address, signature, undefined, true)] *)
  bitcoinMessage_verify : bytes + string -> string -> string -> Result bool;
  (** [PublicKey.from] of near-api-js *)
  near_PublicKey_from : string -> Result NearPublicKey;
  (** [pubKey.verify(message, signature)] of near-api-js *)
  near_PublicKey_verify : NearPublicKey -> bytes -> bytes -> Result bool;
  (** [fromBase64] of @cosmjs/encoding *)
  fromBase64 : string -> Result bytes;
  (** [await cryptoWaitReady()] *)
  cryptoWaitReady : Result bool;
  (** [blake2AsU8a(data, 256)] *)
  blake2AsU8a_256 : bytes -> bytes;
  (** [signatureVerify(message, signature, address).isValid] *)
  signatureVerify_isValid : bytes -> bytes -> string -> Result bool
}.

(** ** Events *)

Inductive Event : Type :=
| SetVerificationResult (vr : VerificationResult)
| Call_Signature_from (r s : string) (v : Z)
| Call_verifyMessage (msg : string) (sig : SignatureLike)
| Call_verifyTypedData (doc : string) (sig : SignatureLike)
| Call_sha256 (input : bytes)
| Call_nacl_verify (msg sig pk : bytes)
| Call_bitcoinMessage_verify (msg : bytes + string) (addr sig : string)
| Call_near_verify (pk : NearPublicKey) (msg sig : bytes)
| Call_cryptoWaitReady
| Call_blake2 (input : bytes)
| Call_signatureVerify (msg sig : bytes) (addr : string).

(** The events that are calls into a cryptographic package. *)
Definition is_crypto_call (e : Event) : bool :=
  match e with
  | SetVerificationResult _ => false
  | _ => true
  end.

(** The state updates of a trace, in order. *)
Fixpoint outcomes (t : list Event) : list VerificationResult :=
  match t with
  | [] => []
  | SetVerificationResult vr :: t' => vr :: outcomes t'
  | _ :: t' => outcomes t'
  end.

(** ** The monad: a trace and a result or an exception *)

Definition M (A : Type) : Type := (list Event * Result A)%type.

Definition ret {A : Type} (a : A) : M A := ([], Ok a).

Definition bind {A B : Type} (m : M A) (f : A -> M B) : M B :=
  match m with
  | (t, Ok a) => let (t', r) := f a in ((t ++ t')%list, r)
  | (t, Throw e) => (t, Throw e)
  end.

(** [try { m } catch (e) { h e }] *)
Definition try_catch {A : Type} (m : M A) (h : string -> M A) : M A :=
  match m with
  | (t, Throw e) => let (t', r) := h e in ((t ++ t')%list, r)
  | (t, Ok a) => (t, Ok a)
  end.

(** A computation of a package that is not recorded. *)
Definition lift {A : Type} (r : Result A) : M A := ([], r).

(** A recorded call: the event is logged whether or not the call throws. *)
Definition call {A : Type} (e : Event) (r : Result A) : M A := ([e], r).

Definition setVerificationResult (vr : VerificationResult) : M unit :=
  ([SetVerificationResult vr], Ok tt).

Declare Scope js_scope.
Delimit Scope js_scope with js.
Notation "x <- m ;; k" := (bind m (fun x => k))
  (at level 61, m at next level, right associativity) : js_scope.
Notation "m ;;; k" := (bind m (fun _ => k))
  (at level 61, right associativity) : js_scope.

(** ** The closure [verify] *)

Section Verify.

Variable L : Lib.

Local Open Scope js_scope.

(** [ethers.getBytes] on a string. *)
Definition ethers_getBytes (value : string) : Result bytes :=
  match Hex.decode_0x value with
  | Some bs => Ok bs
  | None => Throw (ethers_invalid_BytesLike L value)
  end.

(** [ethers.sha256]: the digest, as a [0x] hex string. *)
Definition ethers_sha256 (input : bytes) : M string :=
  call (Call_sha256 input) (Ok (Hex.hexlify (sha256_digest L input))).

(** [x.startsWith('0x') ? x : `0x${x}`] *)
Definition with_0x (x : string) : string :=
  if Js.startsWith "0x" x then x else "0x" ++ x.

(** [x.startsWith('0x') ? x.slice(2) : x] *)
Definition without_0x (x : string) : string :=
  if Js.startsWith "0x" x then Js.slice 2 x else x.

Definition as_string (o : option string) : string :=
  match o with Some x => x | None => EmptyString end.

(** Truthiness of [signResultData.signature]. *)
Definition signature_field_truthy (f : option SignatureField) : bool :=
  match f with
  | Some (SigString x) => negb (Js.is_empty x)
  | Some (SigObject _ _ _ _) => true
  | None => false
  end.

(** Truthiness of the local variable [signature]. *)
Definition signature_truthy (sg : option SignatureLike) : bool :=
  match sg with
  | Some (SigHex x) => negb (Js.is_empty x)
  | Some (SigParts _) => true
  | None => false
  end.

(** Lines 480-482: [sigStr]. *)
Definition sigStr_of (res : SignResult.t) : string :=
  match SignResult.signature res with
  | Some (SigString x) => x
  | Some (SigObject nested _ _ _) => as_string (Js.or_else nested (Some EmptyString))
  | None => EmptyString
  end.

(** Lines 485-487: [r], [s] and [v], looked up in the nested object and
    then at the top level. *)
Definition r_of (res : SignResult.t) : option string :=
  match SignResult.signature res with
  | Some (SigObject _ r _ _) => Js.or_else r (SignResult.r res)
  | _ => Js.or_else None (SignResult.r res)
  end.

Definition s_of (res : SignResult.t) : option string :=
  match SignResult.signature res with
  | Some (SigObject _ _ s _) => Js.or_else s (SignResult.s res)
  | _ => Js.or_else None (SignResult.s res)
  end.

Definition v_of (res : SignResult.t) : option Z :=
  match SignResult.signature res with
  | Some (SigObject _ _ _ v) => Js.nullish v (SignResult.v res)
  | _ => Js.nullish None (SignResult.v res)
  end.

(** Line 497: [v !== undefined ? (v < 27 ? v + 27 : v) : 27]. *)
Definition vNormalized (v : option Z) : Z :=
  match v with
  | Some n => if (n <? 27)%Z then (n + 27)%Z else n
  | None => 27%Z
  end.

(** Lines 492-513: the local variable [signature]. *)
Definition reconstruct (E : Env) : M (option SignatureLike) :=
  let sigStr := sigStr_of (result E) in
  let r := r_of (result E) in
  let s := s_of (result E) in
  let v := v_of (result E) in
  match chain E with
  | evm =>
      if andb (Js.truthy r) (Js.truthy s) then
        let rHex := with_0x (as_string r) in
        let sHex := with_0x (as_string s) in
        sg <- call (Call_Signature_from rHex sHex (vNormalized v))
                   (ethers_Signature_from L rHex sHex (vNormalized v)) ;;
        ret (Some (SigParts sg))
      else if negb (Js.is_empty sigStr) then
        let cleanSig := with_0x sigStr in
        match Nat.eqb (String.length cleanSig) 130, v with
        | true, Some n =>
            let vHex := if (vNormalized (Some n) =? 27)%Z then "1b" else "1c" in
            ret (Some (SigHex (cleanSig ++ vHex)))
        | _, _ => ret (Some (SigHex cleanSig))
        end
      else ret None
  | _ => ret (Some (SigHex (Js.remove_first "0x" sigStr)))
  end.

(** What the [try] block has computed when it reaches line 688, or the
    fact that it has already returned. *)
Inductive Completion : Type :=
| Done (isVerified : bool) (verificationMsg : string)
| Returned.

Definition same_address (a b : string) : bool :=
  String.eqb (Js.toLowerCase a) (Js.toLowerCase b).

(** Lines 532-542: the loop over [[27, 28]]; the value is the [tryV] at
    which the loop was left by [break], if any. *)
Fixpoint try_candidates (E : Env) (rHex sHex : string) (candidates : list Z)
  : M (option Z) :=
  match candidates with
  | [] => ret None
  | tryV :: rest =>
      hit <- try_catch
               (trySig <- call (Call_Signature_from rHex sHex tryV)
                               (ethers_Signature_from L rHex sHex tryV) ;;
                tryAddr <- call (Call_verifyMessage (message E) (SigParts trySig))
                                (ethers_verifyMessage L (message E) (SigParts trySig)) ;;
                ret (same_address tryAddr (Wallet.address (selectedWalletData E))))
               (fun _ => ret false) ;;
      if hit then ret (Some tryV) else try_candidates E rHex sHex rest
  end.

(** Lines 519-546. *)
Definition verify_evm_message (E : Env) (signature : SignatureLike) : M Completion :=
  let r := r_of (result E) in
  let s := s_of (result E) in
  let v := v_of (result E) in
  let wallet := Wallet.address (selectedWalletData E) in
  recoveredAddress <- call (Call_verifyMessage (message E) signature)
                           (ethers_verifyMessage L (message E) signature) ;;
  let isVerified := same_address recoveredAddress wallet in
  if andb (negb isVerified) (andb (Js.truthy r) (Js.truthy s)) then
    let rHex := with_0x (as_string r) in
    let sHex := with_0x (as_string s) in
    found <- try_candidates E rHex sHex [27%Z; 28%Z] ;;
    match found with
    | Some tryV =>
        ret (Done true ("Verified with v=" ++ Js.show_number (Some tryV)
                        ++ " (MPC returned v=" ++ Js.show_number v ++ ")"))
    | None =>
        ret (Done false ("Address mismatch — recovered " ++ recoveredAddress
                         ++ " but wallet is " ++ wallet ++ "."))
    end
  else ret (Done isVerified EmptyString).

(** The cast [signature as string]; on every chain but EVM the variable
    holds a string (lemma [reconstruct_not_evm]). *)
Definition signature_as_string (sg : option SignatureLike) : Result string :=
  match sg with
  | Some (SigHex x) => Ok x
  | _ => Throw "signature is not a string"
  end.

(** Line 566 (and 640, 658): [msgBytes]. *)
Definition msgBytes_of (E : Env) : Result bytes :=
  if encodedByHex E then ethers_getBytes (message E)
  else Ok (Js.TextEncoder_encode (message E)).

(** Lines 549-559: the Solana public key, as its bytes. *)
Definition solana_pubKey (E : Env) : Result bytes :=
  let pkStr := as_string (Js.or_else (Wallet.publicKey (selectedWalletData E))
                                     (Some EmptyString)) in
  if Js.startsWith "0x" pkStr then
    web3_PublicKey_of_buffer L (Buffer_from_hex L (Js.slice 2 pkStr))
  else if Js.test_hex_64 pkStr then
    web3_PublicKey_of_buffer L (Buffer_from_hex L pkStr)
  else web3_PublicKey_of_string L pkStr.

(** Lines 568-586: the bytes of a Solana signature string. *)
Definition decode_solana_signature (sigStr : string) : Result bytes :=
  let cleanHex := without_0x sigStr in
  let isHex := Js.test_hex_plus cleanHex in
  if andb isHex (Nat.eqb (String.length cleanHex) 128) then
    ethers_getBytes (with_0x sigStr)
  else
    match Bs58.decode sigStr with
    | Ok sigBytes => Ok sigBytes
    | Throw _ =>
        if isHex then ethers_getBytes (with_0x sigStr)
        else Throw "Signature is not valid Hex or Base58"
    end.

(** ['\x19Solana Signed Message:\n'] *)
Definition solana_prefix : string :=
  String (ascii_of_nat 25) ("Solana Signed Message:" ++ String (ascii_of_nat 10) EmptyString).

(** Lines 589-609. *)
Definition verify_solana_bytes (msgBytes sigBytes pubKey : bytes) : M Completion :=
  isValid <- call (Call_nacl_verify msgBytes sigBytes pubKey)
                  (nacl_sign_detached_verify L msgBytes sigBytes pubKey) ;;
  if negb isValid then
    let prefix2 := Js.TextEncoder_encode solana_prefix in
    let fullMessage := (prefix2 ++ msgBytes)%list in
    solHash <- ethers_sha256 fullMessage ;;
    solHashBytes <- lift (ethers_getBytes solHash) ;;
    hashed <- call (Call_nacl_verify solHashBytes sigBytes pubKey)
                   (nacl_sign_detached_verify L solHashBytes sigBytes pubKey) ;;
    if hashed then ret (Done true "Verified (Schema: Hashed with Prefix)")
    else ret (Done false "Solana signature verification failed")
  else ret (Done true "Verified (Schema: Raw Message)").

(** Lines 547-615. *)
Definition verify_solana_message (E : Env) (signature : option SignatureLike)
  : M Completion :=
  match solana_pubKey E with
  | Throw e =>
      setVerificationResult
        (mkVerificationResult failed (Some ("Invalid Solana Public Key: " ++ e))) ;;;
      ret Returned
  | Ok pubKey =>
      msgBytes <- lift (msgBytes_of E) ;;
      try_catch
        (sigStr <- lift (signature_as_string signature) ;;
         sigBytes <- lift (decode_solana_signature sigStr) ;;
         verify_solana_bytes msgBytes sigBytes pubKey)
        (fun e => ret (Done false ("Solana verify error: " ++ e)))
  end.

(** Line 618: [msg], a [Buffer] of the decoded bytes or the text. *)
Definition btc_msg_of (E : Env) : Result (bytes + string) :=
  if encodedByHex E
  then match ethers_getBytes (message E) with
       | Ok bs => Ok (inl bs)
       | Throw e => Throw e
       end
  else Ok (inr (message E)).

(** Lines 616-625. *)
Definition verify_btc_message (E : Env) (signature : option SignatureLike)
  : M Completion :=
  try_catch
    (msg <- lift (btc_msg_of E) ;;
     sigStr <- lift (signature_as_string signature) ;;
     let addr := Wallet.address (selectedWalletData E) in
     isVerified <- call (Call_bitcoinMessage_verify msg addr sigStr)
                        (bitcoinMessage_verify L msg addr sigStr) ;;
     ret (Done isVerified (if isVerified then "Bitcoin signature verified"
                           else "Bitcoin signature verification failed")))
    (fun e => ret (Done false ("BTC verify error: " ++ e))).

(** Lines 628-637: the NEAR key string handed to [PublicKey.from]. *)
Definition near_pubKeyStr (E : Env) : string :=
  let pubKeyStr := as_string (Js.or_else (Wallet.publicKey (selectedWalletData E))
                                         (Some EmptyString)) in
  if negb (Js.is_empty pubKeyStr) then
    let cleanHex := without_0x pubKeyStr in
    if Nat.eqb (String.length cleanHex) 64 then
      "ed25519:" ++ bs58_encode L (Buffer_from_hex L cleanHex)
    else if negb (Js.includes_char ":" pubKeyStr) then "ed25519:" ++ pubKeyStr
    else pubKeyStr
  else pubKeyStr.

(** Lines 645-647 (and 660-662): the bytes of a NEAR or Substrate
    signature string. *)
Definition decode_hex_or_base64 (sigStr : string) : Result bytes :=
  if orb (Js.startsWith "0x" sigStr) (Nat.eqb (String.length sigStr) 128)
  then ethers_getBytes (with_0x sigStr)
  else fromBase64 L sigStr.

(** Lines 626-655. *)
Definition verify_near_message (E : Env) (signature : option SignatureLike)
  : M Completion :=
  try_catch
    (pubKey <- lift (near_PublicKey_from L (near_pubKeyStr E)) ;;
     msgBytes <- lift (msgBytes_of E) ;;
     msgHash <- ethers_sha256 msgBytes ;;
     msgHashBytes <- lift (ethers_getBytes msgHash) ;;
     sigStr <- lift (signature_as_string signature) ;;
     sigBytes <- lift (decode_hex_or_base64 sigStr) ;;
     isVerified <- call (Call_near_verify pubKey msgHashBytes sigBytes)
                        (near_PublicKey_verify L pubKey msgHashBytes sigBytes) ;;
     ret (Done isVerified (if isVerified then "NEAR signature verified"
                           else "NEAR signature verification failed")))
    (fun e => ret (Done false ("NEAR verify error: " ++ e))).

(** Lines 656-672. *)
Definition verify_dot_message (E : Env) (signature : option SignatureLike)
  : M Completion :=
  try_catch
    (msgBytes <- lift (msgBytes_of E) ;;
     sigStr <- lift (signature_as_string signature) ;;
     sigBytes <- lift (decode_hex_or_base64 sigStr) ;;
     call Call_cryptoWaitReady (cryptoWaitReady L) ;;;
     let substrateHash := blake2AsU8a_256 L msgBytes in
     call (Call_blake2 msgBytes) (Ok tt) ;;;
     let addr := Wallet.address (selectedWalletData E) in
     isVerified <- call (Call_signatureVerify substrateHash sigBytes addr)
                        (signatureVerify_isValid L substrateHash sigBytes addr) ;;
     ret (Done isVerified (if isVerified then "Substrate signature verified"
                           else "Substrate signature verification failed")))
    (fun e => ret (Done false ("Substrate verify error: " ++ e))).

(** Lines 518-676: the branch [signType === 'message']. *)
Definition verify_message (E : Env) (signature : option SignatureLike)
  : M Completion :=
  match chain E, signature_truthy signature, signature with
  | evm, true, Some sg => verify_evm_message E sg
  | evm, _, _ => ret (Done false EmptyString)
  | sol, _, _ => verify_solana_message E signature
  | btc, _, _ => verify_btc_message E signature
  | near, _, _ => verify_near_message E signature
  | dot, _, _ => verify_dot_message E signature
  | cosmos, _, _ =>
      ret (Done (signature_truthy signature) "Cosmos signature presence confirmed")
  end.

(** Lines 677-680. *)
Definition verify_typed_data (E : Env) (signature : SignatureLike) : M Completion :=
  recoveredAddress <- call (Call_verifyTypedData (typedData E) signature)
                           (ethers_verifyTypedData L (typedData E) signature) ;;
  ret (Done (same_address recoveredAddress (Wallet.address (selectedWalletData E)))
            EmptyString).

(** Lines 478-686: the [try] block up to the last state update. *)
Definition verify_body (E : Env) : M Completion :=
  signature <- reconstruct E ;;
  match signType E with
  | message_t => verify_message E signature
  | typed_data =>
      match chain E, signature_truthy signature, signature with
      | evm, true, Some sg => verify_typed_data E sg
      | _, _, _ => ret (Done (signature_truthy signature) EmptyString)
      end
  | transaction =>
      ret (Done (orb (signature_field_truthy (SignResult.signature (result E)))
                     (Js.truthy (SignResult.signedTransaction (result E))))
                "Signature attached to transaction payload")
  | delegate_action => ret (Done (signature_truthy signature) EmptyString)
  end.

(** Lines 688-691: the outcome that is displayed. *)
Definition final_result (isVerified : bool) (verificationMsg : string)
  : VerificationResult :=
  mkVerificationResult
    (if isVerified then verified else failed)
    (Some (if negb (Js.is_empty verificationMsg) then verificationMsg
           else if isVerified then "Signature matches selected wallet address"
           else "Signature verification failed")).

(** Lines 469-699. *)
Definition verify (E : Env) : M unit :=
  if andb (negb (signature_field_truthy (SignResult.signature (result E))))
          (negb (Js.truthy (SignResult.signedTransaction (result E))))
  then ret tt
  else
    setVerificationResult (mkVerificationResult pending None) ;;;
    try_catch
      (c <- verify_body E ;;
       match c with
       | Done isVerified verificationMsg =>
           setVerificationResult (final_result isVerified verificationMsg)
       | Returned => ret tt
       end)
      (fun e =>
         setVerificationResult
           (mkVerificationResult failed (Some ("Verification logic error: " ++ e)))).

End Verify.

Arguments verify L E : simpl never.

(** ** A reference instance of the packages

    The codecs and the argument checks follow the packages; the
    cryptography is a toy scheme, enough to run [verify] on examples:
    a "signature" recovers to the address spelled by the low 20 bytes of
    [r] (when [v = 27]) or of [s] (when [v = 28]); an ed25519 "signature" of
    a 32-byte message is 32 bytes (the public key, for tweetnacl) followed
    by the message.  The size checks of tweetnacl are the real ones. *)

Module RefLib.

Definition is_hex32 (x : string) : bool :=
  match Hex.decode_0x x with
  | Some bs => Nat.eqb (List.length bs) 32
  | None => false
  end.

Definition Signature_from (r s : string) (v : Z) : Result EthSignature :=
  if negb (is_hex32 r) then Throw "invalid r"
  else if negb (is_hex32 s) then Throw "invalid s"
  else if orb (v =? 27)%Z (v =? 28)%Z then Ok (mkEthSignature r s v)
  else Throw "invalid v".

Definition low20 (x : string) : string := "0x" ++ Js.slice 26 x.

Definition recover (sg : EthSignature) : string :=
  if (sig_v sg =? 27)%Z then low20 (sig_r sg) else low20 (sig_s sg).

Definition verifyMessage (msg : string) (sg : SignatureLike) : Result string :=
  match sg with
  | SigParts p => Ok (recover p)
  | SigHex x =>
      match Hex.decode_0x x with
      | Some bs =>
          if orb (Nat.eqb (List.length bs) 64) (Nat.eqb (List.length bs) 65)
          then Ok ("0x" ++ Js.slice 90 x)
          else Throw "invalid raw signature length"
      | None => Throw "invalid BytesLike value"
      end
  end.

Definition verifyTypedData (doc : string) (sg : SignatureLike) : Result string :=
  if Js.is_empty doc then Throw "Unexpected end of JSON input"
  else verifyMessage doc sg.

(** A 32-byte stand-in for a digest: the input, cut or zero-padded. *)
Definition digest32 (input : bytes) : bytes :=
  firstn 32 (input ++ repeat x00 32)%list.

Definition bytes_eqb (a b : bytes) : bool :=
  if list_eq_dec Byte.byte_eq_dec a b then true else false.

Definition PublicKey_of_buffer (b : bytes) : Result bytes :=
  if Nat.leb (List.length b) 32
  then Ok (repeat x00 (32 - List.length b) ++ b)%list
  else Throw "Invalid public key input".

Definition PublicKey_of_string (x : string) : Result bytes :=
  match Bs58.decode x with
  | Ok b =>
      if Nat.eqb (List.length b) 32 then Ok b
      else Throw "Invalid public key input"
  | Throw e => Throw e
  end.

Definition nacl_verify (msg sg pk : bytes) : Result bool :=
  if negb (Nat.eqb (List.length sg) 64) then Throw "bad signature size"
  else if negb (Nat.eqb (List.length pk) 32) then Throw "bad public key size"
  else Ok (bytes_eqb sg (pk ++ msg)%list).

Definition hex_buffer (x : string) : bytes :=
  match Hex.decode x with Some b => b | None => [] end.

Definition near_from (x : string) : Result NearPublicKey :=
  if Js.startsWith "ed25519:" x
  then Ok (mkNearPublicKey 0 (Js.TextEncoder_encode (Js.slice 8 x)))
  else Throw "Unknown key type".

Definition near_verify (pk : NearPublicKey) (msg sg : bytes) : Result bool :=
  if negb (Nat.eqb (List.length sg) 64) then Throw "bad signature size"
  else Ok (bytes_eqb (skipn 32 sg) msg).

Definition lib : Lib := {|
  ethers_Signature_from := Signature_from;
  ethers_verifyMessage := verifyMessage;
  ethers_verifyTypedData := verifyTypedData;
  ethers_invalid_BytesLike := fun _ => "invalid BytesLike value";
  sha256_digest := digest32;
  Buffer_from_hex := hex_buffer;
  web3_PublicKey_of_buffer := PublicKey_of_buffer;
  web3_PublicKey_of_string := PublicKey_of_string;
  nacl_sign_detached_verify := nacl_verify;
  bs58_encode := Hex.encode;
  bitcoinMessage_verify := fun _ _ sg =>
    if Nat.eqb (String.length sg) 88 then Ok false
    else Throw "Invalid signature length";
  near_PublicKey_from := near_from;
  near_PublicKey_verify := near_verify;
  fromBase64 := fun x =>
    if Nat.eqb (Nat.modulo (String.length x) 4) 0
    then Ok (Js.TextEncoder_encode x)
    else Throw "Invalid string. Length must be a multiple of 4";
  cryptoWaitReady := Ok true;
  blake2AsU8a_256 := digest32;
  signatureVerify_isValid := fun _ sg _ =>
    if Nat.eqb (List.length sg) 64 then Ok false
    else Throw "Invalid signature length"
|}.

(** A signing result that holds only a signature string. *)
Definition result_of_string (x : string) : SignResult.t :=
  SignResult.mk (Some (SigString x)) None None None None.

Definition wallet0 : Wallet.t :=
  Wallet.mk "cosmos1qypqxpq9qcrsszg2pvxq6rs0zqg3yyc5lzv7xu" None.

End RefLib.

(** ** Vocabulary of the statements *)

(** The guard of line 473 lets a signing result through when it holds a
    signature or a signed transaction. *)
Definition signature_present (res : SignResult.t) : bool :=
  orb (signature_field_truthy (SignResult.signature res))
      (Js.truthy (SignResult.signedTransaction res)).

(** The signature string as the chains other than EVM see it. *)
Definition stripped_signature (res : SignResult.t) : string :=
  Js.remove_first "0x" (sigStr_of res).

Definition no_crypto_call (t : list Event) : bool :=
  forallb (fun e => negb (is_crypto_call e)) t.

Definition pending_result : VerificationResult :=
  mkVerificationResult pending None.

(** ** Example inputs *)

Module Examples.

Definition env_of (x : string) (c : ChainType) (t : SignType) : Env :=
  mkEnv (RefLib.result_of_string x) c RefLib.wallet0 t "Hello, Planbok!" "" false.

(** A Cosmos message whose signature string is the bare prefix. *)
Definition cosmos_bare_prefix : Env := env_of "0x" cosmos message_t.

(** A Cosmos message with a one-byte signature. *)
Definition cosmos_one_byte : Env := env_of "ab" cosmos message_t.

(** Typed data on a Bitcoin wallet. *)
Definition btc_typed_data : Env := env_of "abcd" btc typed_data.

(** A delegate action whose result carries a signed transaction only. *)
Definition near_delegate_signed_tx : Env :=
  mkEnv (SignResult.mk None None None None (Some "AAAA")) near
        (Wallet.mk "account.testnet" None) delegate_action "" "" false.

(** A delegate action with a signature string. *)
Definition near_delegate_signed : Env := env_of "abcd" near delegate_action.

(** A signing result with an empty signature string and nothing else. *)
Definition empty_signature : Env := env_of "" sol message_t.

(** A Solana message whose signature verifies only over the hash of the
    prefixed message: under the toy scheme the signature is the public key
    followed by the digest. *)
Definition solana_publicKey_hex : string :=
  "0x0102030405060708090a0b0c0d0e0f101112131415161718191a1b1c1d1e1f20".

Definition solana_hashed_signature : string :=
  "0102030405060708090a0b0c0d0e0f101112131415161718191a1b1c1d1e1f20"
  ++ "19536f6c616e61205369676e6564204d6573736167653a0a4869000000000000".

Definition solana_hashed_only : Env :=
  mkEnv (RefLib.result_of_string solana_hashed_signature) sol
        (Wallet.mk "4wBqpZM9xaSheZzJSMawUKKwhdpChKbZ5eu5ky4Vigw"
                   (Some solana_publicKey_hex))
        message_t "Hi" "" false.

(** A NEAR message signed, under the toy scheme, over its digest. *)
Definition near_signature : string :=
  "0102030405060708090a0b0c0d0e0f101112131415161718191a1b1c1d1e1f20"
  ++ "4869000000000000000000000000000000000000000000000000000000000000".

Definition near_signed : Env :=
  mkEnv (RefLib.result_of_string near_signature) near
        (Wallet.mk "account.testnet" (Some "ed25519:8qbHbw2BbbTHBW1sbeqakYXVKRQM8Ne7pLK7m6CVfeR"))
        message_t "Hi" "" false.

(** An EVM message signed with [v = 0] whose signer is recovered, under
    the toy scheme, with [v = 28]; the wallet address is in upper case. *)
Definition evm_r : string :=
  "0x1111111111111111111111111111111111111111111111111111111111111111".

Definition evm_s : string :=
  "0x000000000000000000000000abcdefabcdefabcdefabcdefabcdefabcdefabcd".

Definition evm_flipped : Env :=
  mkEnv (SignResult.mk (Some (SigString "0x00")) (Some evm_r) (Some evm_s)
                       (Some 0%Z) None)
        evm (Wallet.mk "0xABCDEFABCDEFABCDEFABCDEFABCDEFABCDEFABCD" None)
        message_t "Hello, Planbok!" "" false.

(** A base64 string that is neither hex nor base58. *)
Definition base64_signature : string := "SGVsbG8+".

Definition solana_base64 : Env :=
  mkEnv (RefLib.result_of_string base64_signature) sol
        (Wallet.mk "4wBqpZM9xaSheZzJSMawUKKwhdpChKbZ5eu5ky4Vigw"
                   (Some solana_publicKey_hex))
        message_t "Hi" "" false.



(** A Solana message on a wallet whose key is 33 bytes of hex. *)
Definition solana_long_key : Env :=
  mkEnv (RefLib.result_of_string solana_hashed_signature) sol
        (Wallet.mk "4wBqpZM9xaSheZzJSMawUKKwhdpChKbZ5eu5ky4Vigw"
                   (Some (solana_publicKey_hex ++ "21")))
        message_t "Hi" "" false.

(** A NEAR message declared hex-encoded whose text has no "0x". *)
Definition near_bare_hex_message : Env :=
  mkEnv (RefLib.result_of_string near_signature) near
        (Wallet.mk "account.testnet" (Some "ed25519:8qbHbw2BbbTHBW1sbeqakYXVKRQM8Ne7pLK7m6CVfeR"))
        message_t "4869" "" true.

(** An EVM message with a 64-byte signature string and [v = 1]. *)
Definition evm_compact : Env :=
  mkEnv (SignResult.mk
           (Some (SigString ("1111111111111111111111111111111111111111111111111111111111111111"
                             ++ "000000000000000000000000abcdefabcdefabcdefabcdefabcdefabcdefabcd")))
           None None (Some 1%Z) None)
        evm (Wallet.mk "0xABCDEFABCDEFABCDEFABCDEFABCDEFABCDEFABCD" None)
        message_t "Hello, Planbok!" "" false.

(** EVM typed data signed with [r], [s] and [v = 1]. *)
Definition evm_typed : Env :=
  mkEnv (SignResult.mk (Some (SigString "0x00")) (Some evm_r) (Some evm_s)
                       (Some 1%Z) None)
        evm (Wallet.mk "0xABCDEFABCDEFABCDEFABCDEFABCDEFABCDEFABCD" None)
        typed_data "" "{}" false.

(** The EVM message of [evm_flipped] signed with [v = 2]: the normalised
    value is 29, which [ethers.Signature.from] refuses. *)
Definition evm_invalid_v : Env :=
  mkEnv (SignResult.mk (Some (SigString "0x00")) (Some evm_r) (Some evm_s)
                       (Some 2%Z) None)
        evm (Wallet.mk "0xABCDEFABCDEFABCDEFABCDEFABCDEFABCDEFABCD" None)
        message_t "Hello, Planbok!" "" false.

(** The NEAR message of [near_signed] whose result also carries [r], [s]
    and [v], in the nested object and at the top level. *)
Definition near_signed_with_components : Env :=
  mkEnv (SignResult.mk
           (Some (SigObject (Some near_signature) (Some evm_r) (Some evm_s)
                            (Some 1%Z)))
           (Some evm_s) (Some evm_r) (Some 0%Z) None)
        near
        (Wallet.mk "account.testnet" (Some "ed25519:8qbHbw2BbbTHBW1sbeqakYXVKRQM8Ne7pLK7m6CVfeR"))
        message_t "Hi" "" false.

End Examples.

(** A computation that updates no state. *)
Definition quiet {A : Type} (m : M A) : Prop := outcomes (fst m) = [].

(** A block that updates no state and runs to line 688 or throws. *)
Definition settled (m : M Completion) : Prop :=
  quiet m /\ snd m <> Ok Returned.

(** What the [try] block can do: reach line 688 or throw, having updated
    no state; or return early, its last step being a [failed] update. *)
Definition well_formed (m : M Completion) : Prop :=
  match m with
  | (t, Ok Returned) =>
      exists t' vr,
        t = (t' ++ [SetVerificationResult vr])%list /\ outcomes t' = [] /\
        status vr = failed /\ explanation vr <> None
  | (t, _) => outcomes t = []
  end.

(** The only package call of [reconstruct]. *)
Definition only_Signature_from (t : list Event) : bool :=
  forallb (fun e => match e with Call_Signature_from _ _ _ => true | _ => false end) t.

(** The bytes of the Solana prefix followed by the message. *)
Definition solana_prefixed (msgBytes : bytes) : bytes :=
  (Js.TextEncoder_encode solana_prefix ++ msgBytes)%list.


Section Candidates.

Variables (L : Lib) (E : Env) (rHex sHex : string).

(** Whether the candidate [tryV] recovers the address of the wallet. *)
Definition candidate_matches (tryV : Z) : bool :=
  match ethers_Signature_from L rHex sHex tryV with
  | Ok sg =>
      match ethers_verifyMessage L (message E) (SigParts sg) with
      | Ok addr => same_address addr (Wallet.address (selectedWalletData E))
      | Throw _ => false
      end
  | Throw _ => false
  end.

(** The package calls made for the candidate [tryV]. *)
Definition candidate_calls (tryV : Z) : list Event :=
  Call_Signature_from rHex sHex tryV ::
  match ethers_Signature_from L rHex sHex tryV with
  | Ok sg => [Call_verifyMessage (message E) (SigParts sg)]
  | Throw _ => []
  end.

(** The calls of a run over the candidates that stops at the first match. *)
Fixpoint retry_calls (candidates : list Z) : list Event :=
  match candidates with
  | [] => []
  | tryV :: rest =>
      (candidate_calls tryV ++
       if candidate_matches tryV then [] else retry_calls rest)%list
  end.

End Candidates.

(** The pairs of chain and operation whose outcome rests on a scheme
    check: messages on every chain but Cosmos, and typed data on EVM. *)
Definition scheme_backed (c : ChainType) (t : SignType) : bool :=
  match t, c with
  | message_t, cosmos => false
  | message_t, _ => true
  | typed_data, evm => true
  | _, _ => false
  end.

(** The event is a scheme check, made against the identity of the wallet,
    that succeeded: the recovered address is the wallet address up to
    letter case, or the check of the signature against the key or the
    address of the wallet returned [true]. *)
Definition attempt_succeeded (L : Lib) (E : Env) (e : Event) : Prop :=
  let wallet := Wallet.address (selectedWalletData E) in
  match e with
  | Call_verifyMessage m sg =>
      exists addr, ethers_verifyMessage L m sg = Ok addr /\
                   same_address addr wallet = true
  | Call_verifyTypedData doc sg =>
      exists addr, ethers_verifyTypedData L doc sg = Ok addr /\
                   same_address addr wallet = true
  | Call_nacl_verify m sg pk =>
      solana_pubKey L E = Ok pk /\
      nacl_sign_detached_verify L m sg pk = Ok true
  | Call_bitcoinMessage_verify m addr sg =>
      addr = wallet /\ bitcoinMessage_verify L m addr sg = Ok true
  | Call_near_verify pk m sg =>
      near_PublicKey_from L (near_pubKeyStr L E) = Ok pk /\
      near_PublicKey_verify L pk m sg = Ok true
  | Call_signatureVerify m sg addr =>
      addr = wallet /\ signatureVerify_isValid L m sg addr = Ok true
  | _ => False
  end.

(** A block that reports success only after a successful scheme check. *)
Definition backed (L : Lib) (E : Env) (m : M Completion) : Prop :=
  match m with
  | (t, Ok (Done true _)) => exists e, In e t /\ attempt_succeeded L E e
  | _ => True
  end.

(** ** The rest of the signing page: what the verification reads *)

(** Lines 366-376: the text the message builder writes into the input. *)
Definition builder_message (content : string) (encodedByHex : bool) : string :=
  if encodedByHex then
    let hex := Hex.encode (Js.TextEncoder_encode content) in
    if negb (Js.is_empty hex) then "0x" ++ hex else EmptyString
  else content.

Definition with_encodedByHex (E : Env) (b : bool) : Env :=
  mkEnv (result E) (chain E) (selectedWalletData E) (signType E)
        (message E) (typedData E) b.

Definition with_message (E : Env) (m : string) (b : bool) : Env :=
  mkEnv (result E) (chain E) (selectedWalletData E) (signType E)
        m (typedData E) b.

Definition with_result (E : Env) (res : SignResult.t) : Env :=
  mkEnv res (chain E) (selectedWalletData E) (signType E)
        (message E) (typedData E) (encodedByHex E).

(** A signing result with its [r], [s] and [v] removed, at the top level
    and in the nested object. *)
Definition forget_components (res : SignResult.t) : SignResult.t :=
  SignResult.mk
    (match SignResult.signature res with
     | Some (SigObject nested _ _ _) => Some (SigObject nested None None None)
     | other => other
     end)
    None None None (SignResult.signedTransaction res).

(** ** The rest of the signing page: what is sent to be signed *)

Module Base64.

Definition ALPHABET : string :=
  "ABCDEFGHIJKLMNOPQRSTUVWXYZabcdefghijklmnopqrstuvwxyz0123456789+/".

Definition char_of (n : N) : ascii :=
  match String.get (N.to_nat n) ALPHABET with
  | Some c => c
  | None => "A"%char
  end.

(** [buffer.toString('base64')]: three bytes give four characters, and
    the last group is filled with "=". *)
Fixpoint encode (bs : bytes) : string :=
  match bs with
  | [] => EmptyString
  | a :: rest1 =>
      let x := Byte.to_N a in
      match rest1 with
      | [] =>
          String (char_of (x / 4))
            (String (char_of ((x mod 4) * 16)) "==")
      | b :: rest2 =>
          let y := Byte.to_N b in
          match rest2 with
          | [] =>
              String (char_of (x / 4))
                (String (char_of ((x mod 4) * 16 + y / 16))
                   (String (char_of ((y mod 16) * 4)) "="))
          | c :: rest3 =>
              let z := Byte.to_N c in
              String (char_of (x / 4))
                (String (char_of ((x mod 4) * 16 + y / 16))
                   (String (char_of ((y mod 16) * 4 + z / 64))
                      (String (char_of (z mod 64)) (encode rest3))))
          end
      end
  end.

Fixpoint index_of (c : ascii) (s : string) (n : N) : option N :=
  match s with
  | EmptyString => None
  | String d s' => if Ascii.eqb c d then Some n else index_of c s' (n + 1)
  end.

Definition is_alphabet (c : ascii) : bool :=
  match index_of c ALPHABET 0 with Some _ => true | None => false end.

Definition value_of (c : ascii) : N :=
  match index_of c ALPHABET 0 with Some n => n | None => 0 end.

(** [/^[a-zA-Z0-9+/]*={0,2}$/.test(s)]. *)
Fixpoint test_format (s : string) : bool :=
  match s with
  | EmptyString => true
  | String c rest =>
      if is_alphabet c then test_format rest
      else orb (String.eqb s "=") (String.eqb s "==")
  end.

Definition byte_of (n : N) : byte := Hex.byte_of_N (n mod 256).

(** Four characters give three bytes; a last group that ends in "=" or
    "==" gives two bytes or one. *)
Fixpoint decode_groups (s : string) : bytes :=
  match s with
  | String a (String b (String c (String d rest))) =>
      let x := value_of a in
      let y := value_of b in
      let z := value_of c in
      let w := value_of d in
      if Ascii.eqb c "=" then [byte_of (x * 4 + y / 16)]
      else if Ascii.eqb d "=" then
        [byte_of (x * 4 + y / 16); byte_of ((y mod 16) * 16 + z / 4)]
      else
        byte_of (x * 4 + y / 16)
          :: byte_of ((y mod 16) * 16 + z / 4)
          :: byte_of ((z mod 4) * 64 + w)
          :: decode_groups rest
  | _ => []
  end.

(** [fromBase64] of @cosmjs/encoding: the format is tested first, then
    base64-js refuses a length that is not a multiple of four. *)
Definition decode (s : string) : Result bytes :=
  if negb (test_format s) then Throw "Invalid base64 string format"
  else if negb (Nat.eqb (Nat.modulo (String.length s) 4) 0)
  then Throw "Invalid string. Length must be a multiple of 4"
  else Ok (decode_groups s).

End Base64.

Module JsText.

(** Text is held as its UTF-8 bytes.  The white space and line
    terminators that [trim] strips are, in one byte, tab, line feed,
    vertical tab, form feed, carriage return and space; in two bytes,
    U+00A0; in three bytes, U+1680, U+2000 to U+200A, U+2028, U+2029,
    U+202F, U+205F, U+3000 and U+FEFF. *)
Definition is_space (c : ascii) : bool :=
  let n := nat_of_ascii c in
  orb (andb (Nat.leb 9 n) (Nat.leb n 13)) (Nat.eqb n 32).

Definition is_space2 (c1 c2 : ascii) : bool :=
  andb (Nat.eqb (nat_of_ascii c1) 194) (Nat.eqb (nat_of_ascii c2) 160).

Definition is_space3 (c1 c2 c3 : ascii) : bool :=
  let a := nat_of_ascii c1 in
  let b := nat_of_ascii c2 in
  let c := nat_of_ascii c3 in
  orb (andb (Nat.eqb a 225) (andb (Nat.eqb b 154) (Nat.eqb c 128)))
  (orb (andb (Nat.eqb a 226)
          (orb (andb (Nat.eqb b 128)
                  (orb (andb (Nat.leb 128 c) (Nat.leb c 138))
                       (orb (Nat.eqb c 168) (orb (Nat.eqb c 169) (Nat.eqb c 175)))))
               (andb (Nat.eqb b 129) (Nat.eqb c 159))))
  (orb (andb (Nat.eqb a 227) (andb (Nat.eqb b 128) (Nat.eqb c 128)))
       (andb (Nat.eqb a 239) (andb (Nat.eqb b 187) (Nat.eqb c 191))))).

(** [s.trimStart()]. *)
Fixpoint trimStart (s : string) : string :=
  match s with
  | String c1 r1 =>
      if is_space c1 then trimStart r1
      else
        match r1 with
        | String c2 r2 =>
            if is_space2 c1 c2 then trimStart r2
            else
              match r2 with
              | String c3 r3 =>
                  if is_space3 c1 c2 c3 then trimStart r3 else s
              | EmptyString => s
              end
        | EmptyString => s
        end
  | EmptyString => EmptyString
  end.

(** [s.trimEnd()]: the text is cut at the first place from which only
    white space follows. *)
Fixpoint trimEnd (s : string) : string :=
  match s with
  | String c rest =>
      if Js.is_empty (trimStart s) then EmptyString
      else String c (trimEnd rest)
  | EmptyString => EmptyString
  end.

(** [s.trim()]. *)
Definition trim (s : string) : string := trimEnd (trimStart s).

Definition is_base64_char (c : ascii) : bool :=
  let n := nat_of_ascii c in
  orb (andb (Nat.leb 65 n) (Nat.leb n 90))
      (orb (andb (Nat.leb 97 n) (Nat.leb n 122))
           (orb (andb (Nat.leb 48 n) (Nat.leb n 57))
                (orb (Nat.eqb n 43) (Nat.eqb n 47)))).

Fixpoint all_base64 (s : string) : bool :=
  match s with
  | EmptyString => true
  | String c rest => andb (is_base64_char c) (all_base64 rest)
  end.

(** [/^[A-Za-z0-9+/]+$/.test(s)]. *)
Definition test_base64_plus (s : string) : bool :=
  andb (negb (Js.is_empty s)) (all_base64 s).

Fixpoint pad (k : nat) : string :=
  match k with
  | O => EmptyString
  | S k' => String "=" (pad k')
  end.

(** [s.padEnd(s.length + k, '=')]. *)
Definition padEnd (s : string) (k : nat) : string := s ++ pad k.

End JsText.

Inductive InputMode : Type := json_mode | encoded_mode.

Section HandleSign.

(** [L] gives [Buffer.from(hex, 'hex')]; a parsed JSON document is kept
    abstract, [JSON_parse] being [JSON.parse]. *)
Variable L : Lib.
Variable Json : Type.
Variable JSON_parse : string -> Result Json.

(** Lines 803-809 and 853-859: text that looks like JSON and parses is
    sent as the base64 of its bytes. *)
Definition json_to_base64 (normalized : string) : string :=
  if orb (Js.startsWith "{" normalized) (Js.startsWith "[" normalized) then
    match JSON_parse normalized with
    | Ok _ => Base64.encode (Js.TextEncoder_encode normalized)
    | Throw _ => normalized
    end
  else normalized.

(** Lines 811-817 and 861-867: "0x" and hex digits are sent as the base64
    of the bytes. *)
Definition hex_to_base64 (normalized : string) : string :=
  if Js.startsWith "0x" normalized then
    let hex := Js.slice 2 normalized in
    if Js.all_hex hex then Base64.encode (Buffer_from_hex L hex)
    else normalized
  else normalized.

(** Lines 819-825 and 869-875: the padding that is missing is added to
    text made of base64 characters. *)
Definition add_padding (normalized : string) : string :=
  if JsText.test_base64_plus normalized then
    let missingPadding := Nat.modulo (4 - Nat.modulo (String.length normalized) 4) 4 in
    if Nat.ltb 0 missingPadding
    then JsText.padEnd normalized missingPadding
    else normalized
  else normalized.

(** Lines 792-829: the encoded transaction that is sent. *)
Definition normalize_transaction (chain : option ChainType) (data : string) : string :=
  match chain with
  | Some evm => if negb (Js.startsWith "0x" data) then "0x" ++ data else data
  | Some near | Some sol | Some cosmos =>
      add_padding (hex_to_base64 (json_to_base64 (JsText.trim data)))
  | _ => data
  end.

(** Lines 849-876: the delegate action that is sent. *)
Definition normalize_delegate (chain : option ChainType) (transactionData : string)
  : string :=
  let delegateData := JsText.trim transactionData in
  match chain with
  | Some near => add_padding (hex_to_base64 (json_to_base64 delegateData))
  | _ => delegateData
  end.

(** The state [handleSign] reads. *)
Record SignForm : Type := mkSignForm {
  selectedWallet : string;
  customerId : option string;
  walletCustomer : option string;
  form_chain : option ChainType;
  form_signType : SignType;
  form_message : string;
  form_encodedByHex : bool;
  form_typedData : string;
  inputMode : InputMode;
  transactionData : string
}.

(** The payload of a transaction: the parsed document or the encoded text. *)
Inductive TransactionData : Type :=
| ParsedTransaction (doc : Json)
| EncodedTransaction (data : string).

(** The call of the API client that [handleSign] makes. *)
Inductive ApiCall : Type :=
| createCustomerSignMessageChallenge (customer walletId message : string)
| signMessage (walletId message : string) (encodedByHex : bool)
| createCustomerSignTypedDataChallenge (customer walletId : string) (td : Json)
| signTypedData (walletId : string) (td : Json)
| createCustomerSignTransactionChallenge
    (customer walletId : string) (field : InputMode) (data : TransactionData)
| signTransaction (walletId : string) (data : TransactionData) (mode : InputMode)
| createCustomerSignDelegateActionChallenge (customer walletId data : string)
| signDelegateAction (walletId data : string).

(** [user?.customerId && selectedWalletData?.customer === user.customerId] *)
Definition self_custody (F : SignForm) : option string :=
  match customerId F, walletCustomer F with
  | Some c, Some w =>
      if andb (negb (Js.is_empty c)) (String.eqb w c) then Some c else None
  | _, _ => None
  end.

(** Lines 734-890: [handleSign] up to its call of the API client.  [None]
    is the return of line 736; [Throw] is an error caught at line 894 and
    shown by [setError]. *)
Definition handleSign (F : SignForm) : option (Result ApiCall) :=
  if Js.is_empty (selectedWallet F) then None
  else Some
    match form_signType F with
    | message_t =>
        match self_custody F with
        | Some c =>
            Ok (createCustomerSignMessageChallenge c (selectedWallet F) (form_message F))
        | None =>
            Ok (signMessage (selectedWallet F) (form_message F) (form_encodedByHex F))
        end
    | typed_data =>
        match JSON_parse (form_typedData F) with
        | Throw e => Throw e
        | Ok td =>
            match self_custody F with
            | Some c => Ok (createCustomerSignTypedDataChallenge c (selectedWallet F) td)
            | None => Ok (signTypedData (selectedWallet F) td)
            end
        end
    | transaction =>
        let parsed :=
          match inputMode F with
          | json_mode =>
              match JSON_parse (transactionData F) with
              | Ok doc => Ok (ParsedTransaction doc)
              | Throw e => Throw e
              end
          | encoded_mode =>
              Ok (EncodedTransaction
                    (normalize_transaction (form_chain F) (transactionData F)))
          end in
        match parsed with
        | Throw e => Throw e
        | Ok data =>
            match self_custody F with
            | Some c =>
                Ok (createCustomerSignTransactionChallenge
                      c (selectedWallet F) (inputMode F) data)
            | None => Ok (signTransaction (selectedWallet F) data (inputMode F))
            end
        end
    | delegate_action =>
        if Js.is_empty (JsText.trim (transactionData F)) then
          Throw "Please provide an encoded delegate action (use the builder to generate one)"
        else
          let delegateData := normalize_delegate (form_chain F) (transactionData F) in
          match self_custody F with
          | Some c =>
              Ok (createCustomerSignDelegateActionChallenge c (selectedWallet F) delegateData)
          | None => Ok (signDelegateAction (selectedWallet F) delegateData)
          end
    end.

(** Whether the call creates a challenge for the customer to approve. *)
Definition is_challenge (c : ApiCall) : bool :=
  match c with
  | createCustomerSignMessageChallenge _ _ _
  | createCustomerSignTypedDataChallenge _ _ _
  | createCustomerSignTransactionChallenge _ _ _ _
  | createCustomerSignDelegateActionChallenge _ _ _ => true
  | _ => false
  end.

End HandleSign.

Arguments ParsedTransaction {Json} doc.
Arguments EncodedTransaction {Json} data.

(** A form that differs in its hex toggle only. *)
Definition with_form_hex (F : SignForm) (b : bool) : SignForm :=
  mkSignForm (selectedWallet F) (customerId F) (walletCustomer F) (form_chain F)
             (form_signType F) (form_message F) b (form_typedData F)
             (inputMode F) (transactionData F).

(** ** The chains the front end knows ([lib/chains.ts]) *)

Module Chains.

Inductive EncodedFormat : Type := hex | base64.

Record ChainInfo : Type := mkChainInfo {
  id : string;
  name : string;
  symbol : string;
  type : ChainType;
  testnet : bool;
  explorerUrl : string;
  faucetUrl : option string;
  color : string;
  icon : string;
  supportsContracts : bool;
  supportsCancel : bool;
  supportsAccelerate : bool;
  supportsSignTransaction : bool;
  supportsSignTransactionJson : bool;
  supportsSignDelegateAction : bool;
  supportsSignTypedData : bool;
  encodedFormat : option EncodedFormat
}.

Definition CHAINS : list ChainInfo :=
  [ mkChainInfo "ETH-SEPOLIA" "Ethereum Sepolia" "ETH" evm true
      "https://sepolia.etherscan.io" (Some "https://sepoliafaucet.com")
      "#627EEA" "⟠" true true true true true false true (Some hex);
    mkChainInfo "BTC-TESTNET" "Bitcoin Testnet" "BTC" btc true
      "https://blockstream.info/testnet" (Some "https://coinfaucet.eu/en/btc-testnet")
      "#F7931A" "₿" false false false false false false false None;
    mkChainInfo "SOL-TESTNET" "Solana Testnet" "SOL" sol true
      "https://solscan.io?cluster=testnet" (Some "https://faucet.solana.com")
      "#14F195" "◎" true false false true true false false (Some base64);
    mkChainInfo "ATOM" "Cosmos" "ATOM" cosmos false
      "https://atomscan.com" (Some "https://stakely.io/faucet/cosmos-atom")
      "#2E3148" "⚛" true true true true true false false (Some base64);
    mkChainInfo "NEAR-TESTNET" "NEAR Testnet" "NEAR" near true
      "https://testnet.nearblocks.io" (Some "https://docs.near.org/faucet")
      "#00C08B" "Ⓝ" true false false true true true false (Some base64);
    mkChainInfo "DOT-PASEO" "Polkadot Paseo" "PAS" dot true
      "https://paseo.subscan.io" (Some "https://faucet.polkadot.io")
      "#E6007A" "●" true true true true true false false (Some hex) ].

(** [CHAINS.find(chain => chain.id === id)] *)
Definition getChainById (i : string) : option ChainInfo :=
  find (fun chain => String.eqb (id chain) i) CHAINS.

(** [getChainById(id)?.color || '#6B7280'] *)
Definition getChainColor (i : string) : string :=
  match getChainById i with
  | Some chain => if Js.is_empty (color chain) then "#6B7280" else color chain
  | None => "#6B7280"
  end.

End Chains.

(** The lists of [GET /sign/supported-types] in the back end
    ([routes/signing.ts], lines 130-137). *)
Module SupportedTypes.

Definition message : list string :=
  ["ETH-SEPOLIA"; "ETH"; "POL"; "BSC"; "BASE"; "SOL-TESTNET"; "SOL";
   "BTC-TESTNET"; "BTC"; "NEAR-TESTNET"; "NEAR"; "ATOM-TESTNET"; "ATOM";
   "DOT-PASEO"; "DOT"].

Definition typedData : list string :=
  ["ETH-SEPOLIA"; "ETH"; "POL"; "BSC"; "BASE"; "CELO"; "SCR"; "CRO-EVM"].

Definition transaction : list string :=
  ["ETH-SEPOLIA"; "ETH"; "POL"; "BSC"; "BASE"; "SOL-TESTNET"; "SOL";
   "BTC-TESTNET"; "BTC"; "NEAR-TESTNET"; "NEAR"; "ATOM-TESTNET"; "ATOM";
   "DOT-PASEO"; "DOT"].

Definition delegateAction : list string := ["NEAR-TESTNET"; "NEAR"].

Definition lists (i : string) (l : list string) : bool :=
  existsb (String.eqb i) l.

End SupportedTypes.

(** ** The effect that runs [verify] (lines 195-196 and 462-702) *)

Module Page.

(** [Wallet] of [lib/api.ts]. *)
Record WalletRow : Type := mkWalletRow {
  id : string;
  blockchain : string;
  address : string;
  publicKey : option string;
  walletName : option string;
  customer : option string
}.

(** The state the effect reads. *)
Record State : Type := mkState {
  result : option SignResult.t;
  wallets : list WalletRow;
  selectedWallet : string;
  signType : SignType;
  message : string;
  typedData : string;
  encodedByHex : bool
}.

(** Line 195: [wallets.find(w => w.id === selectedWallet)]. *)
Definition selectedWalletData (S : State) : option WalletRow :=
  find (fun w => String.eqb (id w) (selectedWallet S)) (wallets S).

(** Line 196. *)
Definition chain (S : State) : option Chains.ChainInfo :=
  match selectedWalletData S with
  | Some w => Chains.getChainById (blockchain w)
  | None => None
  end.

(** Lines 462-702: nothing is done without a result, a chain and a wallet;
    otherwise [verify] runs on them. *)
Definition verification_effect (L : Lib) (S : State) : M unit :=
  match result S, chain S, selectedWalletData S with
  | Some res, Some c, Some w =>
      verify L (mkEnv res (Chains.type c) (Wallet.mk (address w) (publicKey w))
                      (signType S) (message S) (typedData S) (encodedByHex S))
  | _, _, _ => ret tt
  end.

End Page.

(** Example states of the page. *)
Module States.

Definition state_of (blockchain : string) : Page.State :=
  Page.mkState (Some (RefLib.result_of_string "ab"))
    [Page.mkWalletRow "wallet-1" blockchain
       "cosmos1qypqxpq9qcrsszg2pvxq6rs0zqg3yyc5lzv7xu" None None None]
    "wallet-1" message_t "Hello, Planbok!" "" false.

(** A wallet on Cosmos, which the table lists as "ATOM". *)
Definition atom_wallet : Page.State := state_of "ATOM".

(** A wallet on the Cosmos test network, which the table does not list. *)
Definition atom_testnet_wallet : Page.State := state_of "ATOM-TESTNET".

(** The entry of the table for the NEAR test network. *)
Definition near_testnet : Chains.ChainInfo :=
  Chains.mkChainInfo "NEAR-TESTNET" "NEAR Testnet" "NEAR" near true
    "https://testnet.nearblocks.io" (Some "https://docs.near.org/faucet")
    "#00C08B" "Ⓝ" true false false true true true false (Some Chains.base64).

End States.

(** ** The signing routes of the back end ([routes/signing.ts]) *)

Module Backend.

(** What a rejected call carries: [error.response?.data?.message] and
    [error.message]. *)
Record Failure : Type := mkFailure {
  response_message : option string;
  failure_message : option string
}.

Inductive Outcome (A : Type) : Type :=
| Fulfilled (a : A)
| Rejected (f : Failure).

Arguments Fulfilled {A} a.
Arguments Rejected {A} f.

Section Routes.

(** The answer of the custody service is kept abstract. *)
Variable Json : Type.

(** [encryptionService.generateEncryptedSecret('sign')] and the two
    calls of [planbokClient]. *)
Record Services : Type := mkServices {
  generateEncryptedSecret : Outcome string;
  client_signMessage : string -> string -> bool -> string -> Outcome Json;
  client_signDelegateAction : string -> string -> string -> Outcome Json
}.

(** The calls a handler has made, in order. *)
Inductive Call : Type :=
| Call_generateEncryptedSecret
| Call_signMessage (walletId message : string) (encodedByHex : bool) (secret : string)
| Call_signDelegateAction (walletId unsignedDelegateAction secret : string).

Inductive Body : Type :=
| Answer (result : Json)
| Error (error : string).

Record Response : Type := mkResponse {
  status : nat;
  body : Body
}.

(** [a || b || fallback] on strings that may be missing. *)
Definition first_message (a b : option string) (fallback : string) : string :=
  as_string (Js.or_else (Js.or_else a b) (Some fallback)).

(** Lines 14-39: [POST /sign/message], for a request that has passed the
    session middleware. *)
Definition post_message (S : Services)
  (walletId message : option string) (encodedByHex : option bool)
  : list Call * Response :=
  if orb (negb (Js.truthy walletId)) (negb (Js.truthy message)) then
    ([], mkResponse 400 (Error "walletId and message are required"))
  else
    let failed (f : Failure) :=
      mkResponse 500
        (Error (first_message (response_message f) (failure_message f)
                              "Failed to sign message")) in
    match generateEncryptedSecret S with
    | Rejected f => ([Call_generateEncryptedSecret], failed f)
    | Fulfilled encryptedSecret =>
        let hex := match encodedByHex with Some b => b | None => false end in
        let calls :=
          [Call_generateEncryptedSecret;
           Call_signMessage (as_string walletId) (as_string message) hex encryptedSecret] in
        match client_signMessage S (as_string walletId) (as_string message)
                hex encryptedSecret with
        | Fulfilled result => (calls, mkResponse 200 (Answer result))
        | Rejected f => (calls, failed f)
        end
    end.

(** Lines 104-124: [POST /sign/delegate-action]. *)
Definition post_delegate_action (S : Services)
  (walletId delegateAction : option string) : list Call * Response :=
  if orb (negb (Js.truthy walletId)) (negb (Js.truthy delegateAction)) then
    ([], mkResponse 400 (Error "walletId and delegateAction are required"))
  else
    let failed (f : Failure) :=
      mkResponse 500
        (Error (first_message (failure_message f) None
                              "Failed to sign delegate action")) in
    match generateEncryptedSecret S with
    | Rejected f => ([Call_generateEncryptedSecret], failed f)
    | Fulfilled encryptedSecret =>
        let calls :=
          [Call_generateEncryptedSecret;
           Call_signDelegateAction (as_string walletId) (as_string delegateAction)
                                   encryptedSecret] in
        match client_signDelegateAction S (as_string walletId)
                (as_string delegateAction) encryptedSecret with
        | Fulfilled result => (calls, mkResponse 200 (Answer result))
        | Rejected f => (calls, failed f)
        end
    end.

(** The request of the API client ([lib/api.ts], lines 240-245 and
    261-266) as the handler receives it. *)
Definition serve (S : Services) (call : ApiCall Json)
  : option (list Call * Response) :=
  match call with
  | signMessage _ walletId message encodedByHex =>
      Some (post_message S (Some walletId) (Some message) (Some encodedByHex))
  | signDelegateAction _ walletId data =>
      Some (post_delegate_action S (Some walletId) (Some data))
  | _ => None
  end.

End Routes.

End Backend.

(** ** Example forms *)

Module Forms.

(** A stand-in for [JSON.parse]: a text is accepted when it opens with a
    brace and closes with one; the document is kept as its text. *)
Definition parse (x : string) : Result string :=
  if andb (Js.startsWith "{" x) (Js.startsWith "}" (Js.slice (String.length x - 1) x))
  then Ok x else Throw "Unexpected token".

Definition form_of (custody : option string) (c : ChainType) (t : SignType)
  (mode : InputMode) (data : string) : SignForm :=
  mkSignForm "wallet-1" (Some "customer-1") custody (Some c) t
             "Hello, Planbok!" true "{}" mode data.

(** The no-break space U+00A0, the byte order mark U+FEFF and the line
    separator U+2028, in UTF-8. *)
Definition nbsp : string :=
  String (ascii_of_nat 194) (String (ascii_of_nat 160) EmptyString).

Definition bom : string :=
  String (ascii_of_nat 239) (String (ascii_of_nat 187)
    (String (ascii_of_nat 191) EmptyString)).

Definition line_separator : string :=
  String (ascii_of_nat 226) (String (ascii_of_nat 128)
    (String (ascii_of_nat 168) EmptyString)).

(** A NEAR delegate action made of white space only. *)
Definition near_blank : SignForm :=
  form_of None near delegate_action encoded_mode (nbsp ++ " " ++ line_separator).

(** A NEAR delegate action given as "0x" between blanks, on a wallet of
    the organization. *)
Definition near_bare_prefix : SignForm :=
  form_of None near delegate_action encoded_mode " 0x ".

(** A Solana transaction given as hex, on a wallet of the customer. *)
Definition sol_hex_transaction : SignForm :=
  form_of (Some "customer-1") sol transaction encoded_mode "0x48656c6c6f".

(** A Cosmos transaction given as JSON text in the encoded mode. *)
Definition cosmos_json_text : SignForm :=
  form_of None cosmos transaction encoded_mode "{}".

(** A message on a wallet of the customer. *)
Definition custody_message : SignForm :=
  form_of (Some "customer-1") evm message_t json_mode "".

(** A message signed directly with the hex toggle on and nothing typed
    into the builder. *)
Definition empty_hex_message : SignForm :=
  mkSignForm "wallet-1" None None (Some sol) message_t
             (builder_message "" true) true "{}" json_mode "".

(** Services of the back end that always answer. *)
Definition services : Backend.Services string :=
  Backend.mkServices string
    (Backend.Fulfilled "secret")
    (fun _ _ _ _ => Backend.Fulfilled "{}")
    (fun _ _ _ => Backend.Fulfilled "{}").

End Forms.

(** ** The reference instance with a decoder of base64 *)

Module RefLib64.

(** The packages of [RefLib], with [fromBase64] decoding base64. *)
Definition lib : Lib := {|
  ethers_Signature_from := ethers_Signature_from RefLib.lib;
  ethers_verifyMessage := ethers_verifyMessage RefLib.lib;
  ethers_verifyTypedData := ethers_verifyTypedData RefLib.lib;
  ethers_invalid_BytesLike := ethers_invalid_BytesLike RefLib.lib;
  sha256_digest := sha256_digest RefLib.lib;
  Buffer_from_hex := Buffer_from_hex RefLib.lib;
  web3_PublicKey_of_buffer := web3_PublicKey_of_buffer RefLib.lib;
  web3_PublicKey_of_string := web3_PublicKey_of_string RefLib.lib;
  nacl_sign_detached_verify := nacl_sign_detached_verify RefLib.lib;
  bs58_encode := bs58_encode RefLib.lib;
  bitcoinMessage_verify := bitcoinMessage_verify RefLib.lib;
  near_PublicKey_from := near_PublicKey_from RefLib.lib;
  near_PublicKey_verify := near_PublicKey_verify RefLib.lib;
  fromBase64 := Base64.decode;
  cryptoWaitReady := cryptoWaitReady RefLib.lib;
  blake2AsU8a_256 := blake2AsU8a_256 RefLib.lib;
  signatureVerify_isValid := signatureVerify_isValid RefLib.lib
|}.

(** The 64 bytes of a signature that, under the toy scheme, signs the
    digest of "Hi"; their base64 text holds "0x" at its fifth
    character. *)
Definition near_0x_bytes : bytes :=
  ([x00; x00; x00; xd3; x10; x00] ++ repeat x00 26
   ++ list_byte_of_string "Hi" ++ repeat x00 30)%list.

Definition near_0x_signature : string :=
  "AAAA0xAAAAAAAAAAAAAAAAAAAAAAAAAAAAAAAAAAAABIaQAAAAAAAAAAAAAAAAAAAAAAAAAAAAAAAAAAAAAAAA==".


End RefLib64.

(** ** NEAR: the key string and the signature bytes, in the words of the
       specification *)

Module NearSpec.

(** The text without a leading "0x". *)
Definition digits (x : string) : string :=
  match x with
  | String a (String b rest) =>
      if andb (Ascii.eqb a "0") (Ascii.eqb b "x") then rest else x
  | _ => x
  end.

Section Spec.

Variable L : Lib.



End Spec.

End NearSpec.

(** ** Basic facts *)

Example bs58_hello :
  Bs58.decode "2NEpo7TZRRrLZSi2U" = Ok (list_byte_of_string "Hello World!").
Proof. reflexivity. Qed.

Example bs58_leading_zeroes :
  Bs58.decode "11StV1DL6CwTryKyV"
  = Ok (x00 :: x00 :: list_byte_of_string "hello world").
Proof. reflexivity. Qed.

Example bs58_rejects_zero : Bs58.decode "0x" = Throw "Non-base58 character".
Proof. reflexivity. Qed.

Example hex_decode_mixed_case : Hex.decode_0x "0x00ffAb" = Some [x00; xff; xab].
Proof. reflexivity. Qed.

Example hex_decode_odd : Hex.decode_0x "0xabc" = None.
Proof. reflexivity. Qed.

Example replace_first_only : Js.remove_first "0x" "ab0xcd0x" = "abcd0x".
Proof. reflexivity. Qed.

Example show_negative : Js.show_number (Some (-5)%Z) = "-5".
Proof. reflexivity. Qed.

Example trim_unicode_white_space :
  JsText.trim (Forms.nbsp ++ " a b " ++ Forms.bom ++ Forms.line_separator)
  = "a b".
Proof. reflexivity. Qed.

Example trim_keeps_other_text :
  JsText.trim (String (ascii_of_nat 195) (String (ascii_of_nat 169) " x "))
  = String (ascii_of_nat 195) (String (ascii_of_nat 169) " x").
Proof. reflexivity. Qed.

Example base64_decode_hello :
  Base64.decode "SGVsbG8=" = Ok (list_byte_of_string "Hello").
Proof. reflexivity. Qed.

Example base64_decode_length :
  Base64.decode "SGVsbG8"
  = Throw "Invalid string. Length must be a multiple of 4".
Proof. reflexivity. Qed.

Example base64_near_0x_signature :
  Base64.encode RefLib64.near_0x_bytes = RefLib64.near_0x_signature /\
  Base64.decode RefLib64.near_0x_signature = Ok RefLib64.near_0x_bytes.
Proof. split; reflexivity. Qed.

Lemma guard_signature_present (res : SignResult.t) :
  andb (negb (signature_field_truthy (SignResult.signature res)))
       (negb (Js.truthy (SignResult.signedTransaction res)))
  = negb (signature_present res).
Proof.
  unfold signature_present.
  now rewrite negb_orb.
Qed.

Lemma verify_guarded (L : Lib) (E : Env) :
  signature_present (result E) = false -> verify L E = ([], Ok tt).
Proof.
  intros H. unfold verify.
  rewrite guard_signature_present, H. reflexivity.
Qed.

(** Past the guard, [verify] is the pending update followed by the
    protected block. *)
Lemma verify_unguarded (L : Lib) (E : Env) :
  signature_present (result E) = true ->
  verify L E =
  bind (setVerificationResult pending_result)
    (fun _ =>
       try_catch
         (bind (verify_body L E)
            (fun c =>
               match c with
               | Done isVerified verificationMsg =>
                   setVerificationResult (final_result isVerified verificationMsg)
               | Returned => ret tt
               end))
         (fun e =>
            setVerificationResult
              (mkVerificationResult failed
                 (Some ("Verification logic error: " ++ e))))).
Proof.
  intros H. unfold verify.
  rewrite guard_signature_present, H. reflexivity.
Qed.

Lemma bind_lift_ok {A B : Type} (a : A) (f : A -> M B) :
  bind (lift (Ok a)) f = f a.
Proof. unfold bind, lift. now destruct (f a). Qed.

Lemma reconstruct_not_evm (L : Lib) (E : Env) :
  chain E <> evm ->
  reconstruct L E = ([], Ok (Some (SigHex (stripped_signature (result E))))).
Proof.
  intros H. unfold reconstruct, stripped_signature.
  destruct (chain E); try reflexivity. now elim H.
Qed.

Lemma sigStr_present (res : SignResult.t) :
  Js.is_empty (sigStr_of res) = false -> signature_present res = true.
Proof.
  unfold signature_present, sigStr_of.
  destruct (SignResult.signature res) as [[x | nested r s v] | ]; simpl.
  - now intros ->.
  - reflexivity.
  - discriminate.
Qed.

Lemma stripped_present (res : SignResult.t) :
  Js.is_empty (stripped_signature res) = false -> signature_present res = true.
Proof.
  intros H. apply sigStr_present.
  unfold stripped_signature in H.
  destruct (sigStr_of res); [ discriminate H | reflexivity ].
Qed.

(** ** Presence checks: Cosmos messages, typed data off EVM, transactions
       and delegate actions *)

Ltac start_verify H :=
  rewrite verify_unguarded by exact H; unfold verify_body.

(** C10, as stated, fails: the signature string ["0x"] is not empty, yet
    the Cosmos outcome is [failed]. *)
Lemma cosmos_bare_prefix_fails :
  Js.is_empty (sigStr_of (result Examples.cosmos_bare_prefix)) = false /\
  verify RefLib.lib Examples.cosmos_bare_prefix =
  ([SetVerificationResult pending_result;
    SetVerificationResult
      (mkVerificationResult failed (Some "Cosmos signature presence confirmed"))],
   Ok tt).
Proof. split; reflexivity. Qed.

(** C10 (amended): a Cosmos message is reported [verified], with the
    explanation "Cosmos signature presence confirmed", whenever the
    signature string is not empty once its first "0x" is removed; the two
    state updates are the whole trace, so no package is called, and none is
    called on any Cosmos message. *)
Theorem cosmos_message_presence (L : Lib) (E : Env) :
  chain E = cosmos ->
  signType E = message_t ->
  no_crypto_call (fst (verify L E)) = true /\
  (Js.is_empty (stripped_signature (result E)) = false ->
   verify L E =
   ([SetVerificationResult pending_result;
     SetVerificationResult
       (mkVerificationResult verified (Some "Cosmos signature presence confirmed"))],
    Ok tt)).
Proof.
  intros Hc Ht.
  assert (Hne : chain E <> evm) by (rewrite Hc; discriminate).
  split.
  - destruct (signature_present (result E)) eqn:Hg.
    + start_verify Hg. rewrite (reconstruct_not_evm L E Hne), Ht.
      unfold verify_message. rewrite Hc. simpl.
      now destruct (Js.is_empty (stripped_signature (result E))).
    + now rewrite verify_guarded.
  - intros Hs. pose proof (stripped_present _ Hs) as Hg.
    start_verify Hg. rewrite (reconstruct_not_evm L E Hne), Ht.
    unfold verify_message. rewrite Hc. simpl. now rewrite Hs.
Qed.

Lemma cosmos_message_presence_witness :
  verify RefLib.lib Examples.cosmos_one_byte =
  ([SetVerificationResult pending_result;
    SetVerificationResult
      (mkVerificationResult verified (Some "Cosmos signature presence confirmed"))],
   Ok tt).
Proof.
  apply (cosmos_message_presence RefLib.lib Examples.cosmos_one_byte);
    reflexivity.
Defined.

(** C3, as stated, fails: typed data on a Bitcoin wallet is reported
    [verified], not [failed]. *)
Lemma btc_typed_data_is_verified :
  verify RefLib.lib Examples.btc_typed_data =
  ([SetVerificationResult pending_result;
    SetVerificationResult
      (mkVerificationResult verified
         (Some "Signature matches selected wallet address"))],
   Ok tt).
Proof. reflexivity. Qed.

(** C3 (amended): for typed data on a chain other than EVM no package is
    called.  When the signing result holds neither a signature nor a
    signed transaction, nothing happens and there is no outcome.
    Otherwise the outcome is a presence check: [verified] when the
    signature string is not empty once its first "0x" is removed, [failed]
    when it is empty, with the default explanation of either case. *)
Theorem typed_data_off_evm (L : Lib) (E : Env) :
  chain E <> evm ->
  signType E = typed_data ->
  (signature_present (result E) = false -> verify L E = ([], Ok tt)) /\
  (signature_present (result E) = true ->
   verify L E =
   ([SetVerificationResult pending_result;
     SetVerificationResult
       (if Js.is_empty (stripped_signature (result E))
        then mkVerificationResult failed (Some "Signature verification failed")
        else mkVerificationResult verified
               (Some "Signature matches selected wallet address"))],
    Ok tt)).
Proof.
  intros Hne Ht. split; [ apply verify_guarded | ]. intros Hg.
  start_verify Hg. rewrite (reconstruct_not_evm L E Hne), Ht. simpl.
  destruct (chain E); try (now elim Hne);
    now destruct (Js.is_empty (stripped_signature (result E))).
Qed.

Lemma typed_data_off_evm_witness :
  verify RefLib.lib Examples.btc_typed_data =
  ([SetVerificationResult pending_result;
    SetVerificationResult
      (mkVerificationResult verified
         (Some "Signature matches selected wallet address"))],
   Ok tt).
Proof.
  apply (proj2 (typed_data_off_evm RefLib.lib Examples.btc_typed_data
                  ltac:(discriminate) eq_refl));
    reflexivity.
Defined.

(** ** State updates of the protected block *)

Lemma outcomes_app (t t' : list Event) :
  outcomes (t ++ t') = (outcomes t ++ outcomes t')%list.
Proof.
  induction t as [ | e t IH]; simpl; [ reflexivity | ].
  destruct e; simpl; now rewrite ?IH.
Qed.

Lemma quiet_ret {A : Type} (a : A) : quiet (ret a).
Proof. reflexivity. Qed.

Lemma quiet_lift {A : Type} (r : Result A) : quiet (lift r).
Proof. reflexivity. Qed.

Lemma quiet_call {A : Type} (e : Event) (r : Result A) :
  is_crypto_call e = true -> quiet (call e r).
Proof. now destruct e. Qed.

Lemma quiet_bind {A B : Type} (m : M A) (f : A -> M B) :
  quiet m -> (forall a, quiet (f a)) -> quiet (bind m f).
Proof.
  unfold quiet. destruct m as [t [a | e]]; simpl; intros Hm Hf; [ | exact Hm ].
  specialize (Hf a). destruct (f a) as [t' r]; simpl in *.
  now rewrite outcomes_app, Hm, Hf.
Qed.

Lemma quiet_try_catch {A : Type} (m : M A) (h : string -> M A) :
  quiet m -> (forall e, quiet (h e)) -> quiet (try_catch m h).
Proof.
  unfold quiet. destruct m as [t [a | e]]; simpl; intros Hm Hh; [ exact Hm | ].
  specialize (Hh e). destruct (h e) as [t' r]; simpl in *.
  now rewrite outcomes_app, Hm, Hh.
Qed.

Lemma quiet_ethers_sha256 (L : Lib) (input : bytes) : quiet (ethers_sha256 L input).
Proof. reflexivity. Qed.

Lemma settled_done (b : bool) (x : string) : settled (ret (Done b x)).
Proof. split; [ reflexivity | discriminate ]. Qed.

Lemma settled_bind {A : Type} (m : M A) (f : A -> M Completion) :
  quiet m -> (forall a, settled (f a)) -> settled (bind m f).
Proof.
  intros Hm Hf. split.
  - apply quiet_bind; [ exact Hm | intros a; apply Hf ].
  - destruct m as [t [a | e]]; simpl; [ | discriminate ].
    destruct (Hf a) as [_ Hr]. now destruct (f a).
Qed.

Lemma settled_try_catch (m : M Completion) (h : string -> M Completion) :
  settled m -> (forall e, settled (h e)) -> settled (try_catch m h).
Proof.
  intros [Hq Hr] Hh. split.
  - apply quiet_try_catch; [ exact Hq | intros e; apply Hh ].
  - destruct m as [t [a | e]]; simpl in *; [ exact Hr | ].
    destruct (Hh e) as [_ Hr']. now destruct (h e).
Qed.

Lemma settled_well_formed (m : M Completion) : settled m -> well_formed m.
Proof.
  destruct m as [t [[b x | ] | e]]; intros [Hq Hr]; simpl in *;
    [ exact Hq | now elim Hr | exact Hq ].
Qed.

Create HintDb quiet.
#[local] Hint Resolve quiet_ret quiet_lift quiet_ethers_sha256 settled_done : quiet.

(** One step of a proof that a block is quiet or settled. *)
Ltac quiet_step :=
  match goal with
  | |- quiet (bind _ _) => apply quiet_bind; [ | intros ]
  | |- quiet (try_catch _ _) => apply quiet_try_catch; [ | intros ]
  | |- quiet (call _ _) => apply quiet_call; reflexivity
  | |- settled (bind _ _) => apply settled_bind; [ | intros ]
  | |- settled (try_catch _ _) => apply settled_try_catch; [ | intros ]
  | |- quiet (if ?b then _ else _) => destruct b
  | |- settled (if ?b then _ else _) => destruct b
  | |- quiet (match ?x with _ => _ end) => destruct x
  | |- settled (match ?x with _ => _ end) => destruct x
  | |- _ => solve [ auto with quiet ]
  end.

Lemma quiet_try_candidates (L : Lib) (E : Env) (rHex sHex : string) (cs : list Z) :
  quiet (try_candidates L E rHex sHex cs).
Proof.
  induction cs as [ | tryV rest IH]; cbn [try_candidates]; [ reflexivity | ].
  repeat quiet_step.
Qed.

Lemma quiet_reconstruct (L : Lib) (E : Env) : quiet (reconstruct L E).
Proof. unfold reconstruct. repeat quiet_step. Qed.

Lemma settled_evm_message (L : Lib) (E : Env) (sg : SignatureLike) :
  settled (verify_evm_message L E sg).
Proof.
  unfold verify_evm_message. repeat quiet_step.
  apply quiet_try_candidates.
Qed.

Lemma settled_solana_bytes (L : Lib) (m sg pk : bytes) :
  settled (verify_solana_bytes L m sg pk).
Proof. unfold verify_solana_bytes. repeat quiet_step. Qed.

Lemma settled_btc_message (L : Lib) (E : Env) (sg : option SignatureLike) :
  settled (verify_btc_message L E sg).
Proof. unfold verify_btc_message. repeat quiet_step. Qed.

Lemma settled_near_message (L : Lib) (E : Env) (sg : option SignatureLike) :
  settled (verify_near_message L E sg).
Proof. unfold verify_near_message. repeat quiet_step. Qed.

Lemma settled_dot_message (L : Lib) (E : Env) (sg : option SignatureLike) :
  settled (verify_dot_message L E sg).
Proof. unfold verify_dot_message. repeat quiet_step. Qed.

Lemma settled_typed_data (L : Lib) (E : Env) (sg : SignatureLike) :
  settled (verify_typed_data L E sg).
Proof. unfold verify_typed_data. repeat quiet_step. Qed.

Lemma well_formed_solana_message (L : Lib) (E : Env) (sg : option SignatureLike) :
  well_formed (verify_solana_message L E sg).
Proof.
  unfold verify_solana_message.
  destruct (solana_pubKey L E) as [pk | e].
  - apply settled_well_formed. repeat quiet_step.
    apply settled_solana_bytes.
  - simpl. exists [], (mkVerificationResult failed
                          (Some ("Invalid Solana Public Key: " ++ e))).
    repeat split. discriminate.
Qed.

Lemma well_formed_message (L : Lib) (E : Env) (sg : option SignatureLike) :
  well_formed (verify_message L E sg).
Proof.
  unfold verify_message.
  destruct (chain E).
  - destruct (signature_truthy sg); [ destruct sg | ];
      try (apply settled_well_formed; auto using settled_evm_message, settled_done);
      reflexivity.
  - apply settled_well_formed, settled_btc_message.
  - apply well_formed_solana_message.
  - reflexivity.
  - apply settled_well_formed, settled_near_message.
  - apply settled_well_formed, settled_dot_message.
Qed.

Lemma well_formed_bind {A : Type} (m : M A) (f : A -> M Completion) :
  quiet m -> (forall a, well_formed (f a)) -> well_formed (bind m f).
Proof.
  unfold quiet. destruct m as [t [a | e]]; simpl; intros Hm Hf; [ | exact Hm ].
  specialize (Hf a). destruct (f a) as [t' [[b x | ] | e]]; simpl in *.
  - now rewrite outcomes_app, Hm, Hf.
  - destruct Hf as (t'' & vr & -> & Hq & Hs & Hx).
    exists (t ++ t'')%list, vr. rewrite app_assoc, outcomes_app, Hm, Hq.
    now repeat split.
  - now rewrite outcomes_app, Hm, Hf.
Qed.

Lemma well_formed_body (L : Lib) (E : Env) : well_formed (verify_body L E).
Proof.
  unfold verify_body. apply well_formed_bind; [ apply quiet_reconstruct | ].
  intros sg. destruct (signType E).
  - apply well_formed_message.
  - destruct (chain E), (signature_truthy sg), sg;
      try reflexivity; apply settled_well_formed, settled_typed_data.
  - reflexivity.
  - reflexivity.
Qed.

Lemma final_result_settled (b : bool) (x : string) :
  status (final_result b x) <> pending /\ explanation (final_result b x) <> None.
Proof. destruct b; split; discriminate. Qed.

(** ** No exception escapes *)

(** C5, as stated, fails: with an empty signature string and no signed
    transaction the call updates no state, so it yields no outcome. *)
Lemma empty_signature_yields_no_outcome :
  verify RefLib.lib Examples.empty_signature = ([], Ok tt).
Proof. reflexivity. Qed.

(** C5 (amended): [verify] never throws.  When the signing result holds a
    signature or a signed transaction the state is updated exactly twice,
    to [pending] and then to an outcome that is [verified] or [failed] and
    carries an explanation; an exception that leaves the protected block
    gives [failed] with "Verification logic error: " and its message.  When
    the result holds neither, nothing is updated. *)
Theorem verify_never_throws (L : Lib) (E : Env) :
  snd (verify L E) = Ok tt /\
  (signature_present (result E) = false -> fst (verify L E) = []) /\
  (signature_present (result E) = true ->
   exists vr,
     outcomes (fst (verify L E)) = [pending_result; vr] /\
     status vr <> pending /\ explanation vr <> None) /\
  (signature_present (result E) = true ->
   forall t e,
     verify_body L E = (t, Throw e) ->
     verify L E =
     (SetVerificationResult pending_result
        :: t ++ [SetVerificationResult
                   (mkVerificationResult failed
                      (Some ("Verification logic error: " ++ e)))],
      Ok tt)).
Proof.
  destruct (signature_present (result E)) eqn:Hg.
  - rewrite (verify_unguarded L E Hg).
    pose proof (well_formed_body L E) as Hw.
    destruct (verify_body L E) as [t [[b x | ] | e]]; simpl in *.
    + repeat split; try discriminate.
      * intros _. exists (final_result b x).
        rewrite outcomes_app, Hw. split; [ reflexivity | ].
        apply final_result_settled.
    + destruct Hw as (t' & vr & -> & Hq & Hs & Hx).
      repeat split; try discriminate.
      * intros _. exists vr.
        rewrite app_nil_r, outcomes_app, Hq. simpl.
        repeat split; [ now rewrite Hs | exact Hx ].
    + repeat split; try discriminate.
      * intros _. eexists.
        rewrite outcomes_app, Hw. simpl.
        repeat split; discriminate.
      * intros _ t0 e0 [= <- <-]. reflexivity.
  - rewrite (verify_guarded L E Hg). repeat split; discriminate.
Qed.

Lemma verify_never_throws_witness :
  snd (verify RefLib.lib Examples.cosmos_one_byte) = Ok tt /\
  exists vr,
    outcomes (fst (verify RefLib.lib Examples.cosmos_one_byte))
    = [pending_result; vr] /\
    status vr <> pending /\ explanation vr <> None.
Proof.
  destruct (verify_never_throws RefLib.lib Examples.cosmos_one_byte)
    as (Hok & _ & Hout & _).
  split; [ exact Hok | apply Hout; reflexivity ].
Defined.

(** ** Transactions and delegate actions *)

Lemma reconstruct_calls (L : Lib) (E : Env) :
  only_Signature_from (fst (reconstruct L E)) = true.
Proof.
  unfold reconstruct.
  destruct (chain E); try reflexivity.
  destruct (andb _ _).
  - simpl. now destruct (ethers_Signature_from L _ _ _).
  - destruct (negb _); [ | reflexivity ].
    now destruct (Nat.eqb _ _), (v_of (result E)).
Qed.

(** C8, as stated, fails: a delegate action whose result carries a signed
    transaction, but no signature, is reported [failed]. *)
Lemma delegate_signed_transaction_fails :
  signature_present (result Examples.near_delegate_signed_tx) = true /\
  verify RefLib.lib Examples.near_delegate_signed_tx =
  ([SetVerificationResult pending_result;
    SetVerificationResult
      (mkVerificationResult failed (Some "Signature verification failed"))],
   Ok tt).
Proof. split; reflexivity. Qed.

(** The signature is rebuilt with an exception only on EVM with [r] and
    [s], when [ethers.Signature.from] throws it. *)
Lemma reconstruct_throws (L : Lib) (E : Env) (t : list Event) (e : string) :
  reconstruct L E = (t, Throw e) ->
  let rHex := with_0x (as_string (r_of (result E))) in
  let sHex := with_0x (as_string (s_of (result E))) in
  let vN := vNormalized (v_of (result E)) in
  chain E = evm /\
  andb (Js.truthy (r_of (result E))) (Js.truthy (s_of (result E))) = true /\
  t = [Call_Signature_from rHex sHex vN] /\
  ethers_Signature_from L rHex sHex vN = Throw e.
Proof.
  unfold reconstruct.
  destruct (chain E); try discriminate.
  destruct (andb _ _).
  - cbn [call bind ret fst snd app].
    destruct (ethers_Signature_from L _ _ _) as [sg | e'] eqn:Hf;
      cbn [call bind ret fst snd app]; intros [= <- <-]; auto.
  - destruct (negb _); [ | discriminate ].
    now destruct (Nat.eqb _ _), (v_of (result E)).
Qed.

(** C8 (amended): for a transaction or a delegate action no scheme
    verifier is called; the only package call is the rebuilding of the
    signature object from [r], [s] and [v], made on EVM when [r] and [s]
    are present.  With neither a signature nor a signed transaction in the
    result there is no outcome.  Otherwise, if that rebuilding throws, the
    outcome is [failed] with the explanation "Verification logic error: "
    followed by the message; if not, a transaction is reported [verified]
    with "Signature attached to transaction payload", and a delegate
    action is [verified] exactly when the signature value itself is
    non-empty, a signed transaction not being looked at.  Off EVM the
    signature value is the signature string with its first "0x"
    removed. *)
Theorem transaction_and_delegate_presence (L : Lib) (E : Env) :
  let rHex := with_0x (as_string (r_of (result E))) in
  let sHex := with_0x (as_string (s_of (result E))) in
  let vN := vNormalized (v_of (result E)) in
  signType E = transaction \/ signType E = delegate_action ->
  (signature_present (result E) = false -> verify L E = ([], Ok tt)) /\
  (signature_present (result E) = true ->
   forall t,
     (forall sg,
        reconstruct L E = (t, Ok sg) ->
        only_Signature_from t = true /\
        verify L E =
        (SetVerificationResult pending_result
           :: t ++ [SetVerificationResult
                      (match signType E with
                       | transaction =>
                           mkVerificationResult verified
                             (Some "Signature attached to transaction payload")
                       | _ =>
                           if signature_truthy sg
                           then mkVerificationResult verified
                                  (Some "Signature matches selected wallet address")
                           else mkVerificationResult failed
                                  (Some "Signature verification failed")
                       end)],
         Ok tt)) /\
     (forall e,
        reconstruct L E = (t, Throw e) ->
        chain E = evm /\
        andb (Js.truthy (r_of (result E))) (Js.truthy (s_of (result E))) = true /\
        ethers_Signature_from L rHex sHex vN = Throw e /\
        verify L E =
        ([SetVerificationResult pending_result;
          Call_Signature_from rHex sHex vN;
          SetVerificationResult
            (mkVerificationResult failed
               (Some ("Verification logic error: " ++ e)))],
         Ok tt))) /\
  (chain E <> evm ->
   reconstruct L E = ([], Ok (Some (SigHex (stripped_signature (result E)))))) /\
  (chain E = evm ->
   andb (Js.truthy (r_of (result E))) (Js.truthy (s_of (result E))) = true ->
   reconstruct L E =
   ([Call_Signature_from rHex sHex vN],
    match ethers_Signature_from L rHex sHex vN with
    | Ok sg => Ok (Some (SigParts sg))
    | Throw e => Throw e
    end)).
Proof.
  intros rHex sHex vN Ht. split; [ apply verify_guarded | ].
  split; [ | split; [ apply reconstruct_not_evm | ] ].
  - intros Hg t. split.
    + intros sg Hr. split.
      * pose proof (reconstruct_calls L E) as Hc. now rewrite Hr in Hc.
      * start_verify Hg. rewrite Hr.
        destruct Ht as [Ht | Ht]; rewrite Ht; simpl.
        -- unfold signature_present in Hg. rewrite Hg. now rewrite app_nil_r.
        -- rewrite app_nil_r. now destruct (signature_truthy sg).
    + intros e Hr.
      destruct (reconstruct_throws L E t e Hr) as (Hc & Hrs & -> & Hf).
      repeat (split; [ assumption | ]).
      start_verify Hg. rewrite Hr. reflexivity.
  - intros Hc Hrs. unfold reconstruct. rewrite Hc, Hrs.
    fold rHex sHex vN. cbn [call bind ret fst snd app].
    now destruct (ethers_Signature_from L rHex sHex vN).
Qed.

Lemma transaction_and_delegate_presence_witness :
  verify RefLib.lib Examples.near_delegate_signed =
  ([SetVerificationResult pending_result;
    SetVerificationResult
      (mkVerificationResult verified
         (Some "Signature matches selected wallet address"))],
   Ok tt).
Proof.
  destruct (transaction_and_delegate_presence RefLib.lib
              Examples.near_delegate_signed (or_intror eq_refl)) as (_ & H & _).
  exact (proj2 (proj1 (H eq_refl []) (Some (SigHex "abcd")) eq_refl)).
Defined.

(** ** Hex helpers *)

Lemma decode_encode_cons (b : byte) (bs : bytes) :
  Hex.decode (Hex.encode (b :: bs)) =
  match Hex.decode (Hex.encode bs) with
  | Some x => Some (b :: x)
  | None => None
  end.
Proof. destruct b; reflexivity. Qed.

Lemma decode_encode (bs : bytes) : Hex.decode (Hex.encode bs) = Some bs.
Proof.
  induction bs as [ | b bs IH]; [ reflexivity | ].
  now rewrite decode_encode_cons, IH.
Qed.

(** [ethers.getBytes] undoes [ethers.hexlify]. *)
Lemma getBytes_hexlify (L : Lib) (bs : bytes) :
  ethers_getBytes L (Hex.hexlify bs) = Ok bs.
Proof.
  unfold ethers_getBytes, Hex.hexlify. simpl.
  now rewrite decode_encode.
Qed.

(** The hash of [ethers.sha256], read back as bytes, is the digest. *)
Lemma sha256_bytes {A : Type} (L : Lib) (input : bytes) (k : bytes -> M A) :
  bind (ethers_sha256 L input)
       (fun h => bind (lift (ethers_getBytes L h)) k)
  = bind (call (Call_sha256 input) (Ok (sha256_digest L input))) k.
Proof.
  unfold ethers_sha256, call, lift, bind.
  rewrite getBytes_hexlify. now destruct (k _).
Qed.

Lemma starts_with_0x (x : string) :
  Js.startsWith "0x" x = true -> x = "0x" ++ Js.slice 2 x.
Proof.
  unfold Js.startsWith.
  destruct x as [ | a [ | b rest]]; cbn [String.prefix]; try discriminate.
  - now destruct (ascii_dec "0" a).
  - destruct (ascii_dec "0" a) as [<- | ]; [ | discriminate ].
    destruct (ascii_dec "x" b) as [<- | ]; [ reflexivity | discriminate ].
Qed.

(** Both the prefixed and the bare spelling are read as the same digits. *)
Lemma decode_with_0x (x : string) :
  Hex.decode_0x (with_0x x) = Hex.decode (without_0x x).
Proof.
  unfold with_0x, without_0x.
  destruct (Js.startsWith "0x" x) eqn:Hp; [ | reflexivity ].
  now rewrite (starts_with_0x x Hp) at 1.
Qed.

Lemma starts_with_0x_append (x : string) : Js.startsWith "0x" ("0x" ++ x) = true.
Proof. now destruct x. Qed.

(** ** Solana messages *)

(** C2: once the public key, the message and the signature are decoded,
    the ed25519 check is first made on the raw message bytes.  If it
    succeeds the outcome is [verified] and nothing else is tried.  Only if
    it fails is the SHA-256 digest of the prefixed message computed and
    checked; if that check succeeds the outcome is [verified] with the
    explanation "Verified (Schema: Hashed with Prefix)", and if it fails
    too the outcome is [failed]. *)
Theorem solana_raw_then_hashed
  (L : Lib) (E : Env) (pubKey msgBytes sigBytes : bytes) (raw : bool) :
  chain E = sol ->
  signType E = message_t ->
  signature_present (result E) = true ->
  solana_pubKey L E = Ok pubKey ->
  msgBytes_of L E = Ok msgBytes ->
  decode_solana_signature L (stripped_signature (result E)) = Ok sigBytes ->
  nacl_sign_detached_verify L msgBytes sigBytes pubKey = Ok raw ->
  (raw = true ->
   verify L E =
   ([SetVerificationResult pending_result;
     Call_nacl_verify msgBytes sigBytes pubKey;
     SetVerificationResult
       (mkVerificationResult verified (Some "Verified (Schema: Raw Message)"))],
    Ok tt)) /\
  (raw = false ->
   forall hashed : bool,
     nacl_sign_detached_verify L
       (sha256_digest L (solana_prefixed msgBytes)) sigBytes pubKey = Ok hashed ->
     verify L E =
     ([SetVerificationResult pending_result;
       Call_nacl_verify msgBytes sigBytes pubKey;
       Call_sha256 (solana_prefixed msgBytes);
       Call_nacl_verify (sha256_digest L (solana_prefixed msgBytes)) sigBytes pubKey;
       SetVerificationResult
         (if hashed
          then mkVerificationResult verified
                 (Some "Verified (Schema: Hashed with Prefix)")
          else mkVerificationResult failed
                 (Some "Solana signature verification failed"))],
      Ok tt)).
Proof.
  intros Hc Ht Hg Hpk Hmsg Hsig Hraw.
  assert (Hne : chain E <> evm) by (rewrite Hc; discriminate).
  start_verify Hg. rewrite (reconstruct_not_evm L E Hne), Ht.
  unfold verify_message, verify_solana_message. rewrite Hc, Hpk, Hmsg.
  cbn [bind ret lift signature_as_string fst snd app].
  rewrite Hsig. unfold verify_solana_bytes. rewrite Hraw.
  split.
  - intros ->. reflexivity.
  - intros -> hashed Hh. cbn [negb].
    fold (solana_prefixed msgBytes).
    unfold ethers_sha256, call, lift, bind, try_catch.
    rewrite getBytes_hexlify, Hh.
    now destruct hashed.
Qed.

Lemma solana_raw_then_hashed_witness :
  verify RefLib.lib Examples.solana_hashed_only =
  ([SetVerificationResult pending_result;
    Call_nacl_verify
      (Js.TextEncoder_encode "Hi")
      (RefLib.hex_buffer Examples.solana_hashed_signature)
      (RefLib.hex_buffer (Js.slice 2 Examples.solana_publicKey_hex));
    Call_sha256 (solana_prefixed (Js.TextEncoder_encode "Hi"));
    Call_nacl_verify
      (RefLib.digest32 (solana_prefixed (Js.TextEncoder_encode "Hi")))
      (RefLib.hex_buffer Examples.solana_hashed_signature)
      (RefLib.hex_buffer (Js.slice 2 Examples.solana_publicKey_hex));
    SetVerificationResult
      (mkVerificationResult verified
         (Some "Verified (Schema: Hashed with Prefix)"))],
   Ok tt).
Proof.
  refine (proj2 (solana_raw_then_hashed RefLib.lib Examples.solana_hashed_only
                   (RefLib.hex_buffer (Js.slice 2 Examples.solana_publicKey_hex))
                   (Js.TextEncoder_encode "Hi")
                   (RefLib.hex_buffer Examples.solana_hashed_signature)
                   false _ _ _ _ _ _ _) eq_refl true _);
    vm_compute; reflexivity.
Defined.

(** ** NEAR messages *)









(** ** EVM messages *)

Lemma try_candidates_run (L : Lib) (E : Env) (rHex sHex : string) (cs : list Z) :
  try_candidates L E rHex sHex cs =
  (retry_calls L E rHex sHex cs, Ok (find (candidate_matches L E rHex sHex) cs)).
Proof.
  induction cs as [ | tryV rest IH]; [ reflexivity | ].
  cbn [try_candidates retry_calls find].
  pose proof (eq_refl (candidate_matches L E rHex sHex tryV)) as Hm.
  unfold candidate_matches at 2 in Hm. unfold candidate_calls.
  destruct (ethers_Signature_from L rHex sHex tryV) as [sg | e]; simpl.
  - destruct (ethers_verifyMessage L (message E) (SigParts sg)) as [addr | e];
      simpl; rewrite Hm.
    + destruct (same_address addr _); simpl; [ reflexivity | ].
      now rewrite IH.
    + now rewrite IH.
  - rewrite Hm. now rewrite IH.
Qed.

Lemma trace_bind {A B : Type} (m : M A) (f : A -> M B) :
  exists rest, fst (bind m f) = (fst m ++ rest)%list.
Proof.
  destruct m as [t [a | e]]; simpl.
  - destruct (f a) as [t' r]. now exists t'.
  - exists []. now rewrite app_nil_r.
Qed.

Lemma trace_try_catch {A : Type} (m : M A) (h : string -> M A) :
  exists rest, fst (try_catch m h) = (fst m ++ rest)%list.
Proof.
  destruct m as [t [a | e]]; simpl.
  - exists []. now rewrite app_nil_r.
  - destruct (h e) as [t' r]. now exists t'.
Qed.

Lemma trace_bind_ok {A B : Type} (t : list Event) (a : A) (f : A -> M B) :
  fst (bind (t, Ok a) f) = (t ++ fst (f a))%list.
Proof. simpl. now destruct (f a). Qed.

(** Past the guard, the trace starts with the pending update and the
    calls that rebuild the signature. *)
Lemma verify_starts (L : Lib) (E : Env) :
  signature_present (result E) = true ->
  exists rest,
    fst (verify L E) =
    SetVerificationResult pending_result :: (fst (reconstruct L E) ++ rest)%list.
Proof.
  intros Hg. start_verify Hg.
  unfold setVerificationResult at 1. rewrite trace_bind_ok.
  match goal with
  | |- context [ try_catch (bind (bind ?R ?K1) ?K2) ?h ] =>
      destruct (trace_try_catch (bind (bind R K1) K2) h) as [r1 ->];
      destruct (trace_bind (bind R K1) K2) as [r2 ->];
      destruct (trace_bind R K1) as [r3 ->]
  end.
  exists ((r3 ++ r2) ++ r1)%list.
  now rewrite <- !app_assoc.
Qed.

(** C1, as stated, fails: with [v = 2] the signature is rebuilt with
    [v = 29], which [ethers.Signature.from] refuses; the exception leaves
    the block before the loop over 27 and 28, so neither is tried and the
    outcome is [failed], although the candidate 28 recovers the address of
    the wallet. *)
Lemma evm_invalid_v_is_not_retried :
  candidate_matches RefLib.lib Examples.evm_invalid_v
    Examples.evm_r Examples.evm_s 28 = true /\
  verify RefLib.lib Examples.evm_invalid_v =
  ([SetVerificationResult pending_result;
    Call_Signature_from Examples.evm_r Examples.evm_s 29;
    SetVerificationResult
      (mkVerificationResult failed
         (Some "Verification logic error: invalid v"))],
   Ok tt).
Proof. split; reflexivity. Qed.

(** C1 (amended): on an EVM message with [r] and [s] in the signing
    result, nothing happens when the result holds neither a signature nor
    a signed transaction.  Otherwise the signature is rebuilt with
    [v + 27] when [v < 27] (with [v] otherwise, with 27 when there is no
    [v]).  If the rebuilding throws, or if the recovery with the rebuilt
    signature throws, the outcome is [failed] with the explanation
    "Verification logic error: " followed by the message, and no other
    [v] is tried.  If the address recovered is the wallet's, up to letter
    case, the outcome is [verified].  If it is another address, the
    candidates 27 and 28 are tried in that order, 28 only when 27 has not
    recovered the wallet's address, and the outcome is [verified] with the
    explanation naming the candidate that succeeded, or [failed] when
    neither did. *)
Theorem evm_recovery_id_retry (L : Lib) (E : Env) (r s : string) :
  let wallet := Wallet.address (selectedWalletData E) in
  let v := v_of (result E) in
  let vN := match v with
            | Some n => if (n <? 27)%Z then (n + 27)%Z else n
            | None => 27%Z
            end in
  let rHex := with_0x r in
  let sHex := with_0x s in
  let matches := candidate_matches L E rHex sHex in
  let calls := candidate_calls L E rHex sHex in
  let logic_error (e : string) :=
    SetVerificationResult
      (mkVerificationResult failed (Some ("Verification logic error: " ++ e))) in
  chain E = evm ->
  signType E = message_t ->
  r_of (result E) = Some r -> Js.is_empty r = false ->
  s_of (result E) = Some s -> Js.is_empty s = false ->
  (signature_present (result E) = false -> verify L E = ([], Ok tt)) /\
  (signature_present (result E) = true ->
   (forall e : string,
      ethers_Signature_from L rHex sHex vN = Throw e ->
      verify L E =
      ([SetVerificationResult pending_result;
        Call_Signature_from rHex sHex vN;
        logic_error e],
       Ok tt)) /\
   (forall sg0 : EthSignature,
      ethers_Signature_from L rHex sHex vN = Ok sg0 ->
      (forall e : string,
         ethers_verifyMessage L (message E) (SigParts sg0) = Throw e ->
         verify L E =
         ([SetVerificationResult pending_result;
           Call_Signature_from rHex sHex vN;
           Call_verifyMessage (message E) (SigParts sg0);
           logic_error e],
          Ok tt)) /\
      (forall addr0 : string,
         ethers_verifyMessage L (message E) (SigParts sg0) = Ok addr0 ->
         (same_address addr0 wallet = true ->
          verify L E =
          ([SetVerificationResult pending_result;
            Call_Signature_from rHex sHex vN;
            Call_verifyMessage (message E) (SigParts sg0);
            SetVerificationResult
              (mkVerificationResult verified
                 (Some "Signature matches selected wallet address"))],
           Ok tt)) /\
         (same_address addr0 wallet = false ->
          let final :=
            if matches 27%Z then
              mkVerificationResult verified
                (Some ("Verified with v=27 (MPC returned v=" ++ Js.show_number v ++ ")"))
            else if matches 28%Z then
              mkVerificationResult verified
                (Some ("Verified with v=28 (MPC returned v=" ++ Js.show_number v ++ ")"))
            else
              mkVerificationResult failed
                (Some ("Address mismatch — recovered " ++ addr0
                       ++ " but wallet is " ++ wallet ++ ".")) in
          verify L E =
          (([SetVerificationResult pending_result;
             Call_Signature_from rHex sHex vN;
             Call_verifyMessage (message E) (SigParts sg0)]
            ++ calls 27%Z
            ++ (if matches 27%Z then [] else calls 28%Z)
            ++ [SetVerificationResult final])%list,
           Ok tt))))).
Proof.
  intros wallet v vN rHex sHex matches calls logic_error Hc Ht Hr Hr0 Hs Hs0.
  assert (Hrec : reconstruct L E =
                 bind (call (Call_Signature_from rHex sHex vN)
                            (ethers_Signature_from L rHex sHex vN))
                      (fun sg => ret (Some (SigParts sg)))).
  { unfold reconstruct. rewrite Hc, Hr, Hs. simpl Js.truthy.
    rewrite Hr0, Hs0. reflexivity. }
  split; [ apply verify_guarded | ].
  intros Hg. split.
  - intros e Hfrom.
    start_verify Hg. rewrite Hrec, Hfrom. reflexivity.
  - intros sg0 Hfrom. split.
    + intros e Hv.
      start_verify Hg. rewrite Hrec, Hfrom.
      cbn [call bind ret fst snd app]. rewrite Ht.
      unfold verify_message. rewrite Hc. cbn [signature_truthy].
      unfold verify_evm_message. rewrite Hv. reflexivity.
    + intros addr0 Hv.
      start_verify Hg. rewrite Hrec, Hfrom.
      cbn [call bind ret fst snd app]. rewrite Ht.
      unfold verify_message. rewrite Hc. cbn [signature_truthy].
      unfold verify_evm_message. rewrite Hv, Hr, Hs. simpl Js.truthy.
      rewrite Hr0, Hs0. cbn [call bind ret fst snd app negb andb as_string].
      fold wallet rHex sHex v.
      split; [ intros Hsame | intros Hsame; cbv zeta ];
        rewrite Hsame; cbn [negb andb].
      * reflexivity.
      * rewrite try_candidates_run. cbn [retry_calls find].
        fold matches calls.
        destruct (matches 27%Z); [ | destruct (matches 28%Z) ];
          cbn [bind ret try_catch setVerificationResult final_result app fst snd];
          rewrite ?app_nil_r, <- ?app_assoc; reflexivity.
Qed.

Lemma evm_recovery_id_retry_witness :
  verify RefLib.lib Examples.evm_flipped =
  ([SetVerificationResult pending_result;
    Call_Signature_from Examples.evm_r Examples.evm_s 27;
    Call_verifyMessage "Hello, Planbok!"
      (SigParts (mkEthSignature Examples.evm_r Examples.evm_s 27));
    Call_Signature_from Examples.evm_r Examples.evm_s 27;
    Call_verifyMessage "Hello, Planbok!"
      (SigParts (mkEthSignature Examples.evm_r Examples.evm_s 27));
    Call_Signature_from Examples.evm_r Examples.evm_s 28;
    Call_verifyMessage "Hello, Planbok!"
      (SigParts (mkEthSignature Examples.evm_r Examples.evm_s 28));
    SetVerificationResult
      (mkVerificationResult verified
         (Some "Verified with v=28 (MPC returned v=0)"))],
   Ok tt).
Proof.
  refine (proj2 (proj2 (proj2 (proj2
            (evm_recovery_id_retry RefLib.lib Examples.evm_flipped
               Examples.evm_r Examples.evm_s _ _ _ _ _ _) _)
            (mkEthSignature Examples.evm_r Examples.evm_s 27) _)
            "0x1111111111111111111111111111111111111111" _) _);
    vm_compute; reflexivity.
Defined.

(** ** Outcomes that rest on a scheme check *)

Lemma backed_bind {A : Type} (L : Lib) (E : Env) (m : M A) (f : A -> M Completion) :
  (forall a, backed L E (f a)) -> backed L E (bind m f).
Proof.
  intros Hf. destruct m as [t [a | e]]; simpl; [ | exact I ].
  specialize (Hf a). destruct (f a) as [t' [[[ | ] x | ] | e]]; simpl in *; auto.
  destruct Hf as (ev & Hin & Hev). exists ev. split; [ | exact Hev ].
  apply in_or_app. now right.
Qed.

Lemma backed_try_catch (L : Lib) (E : Env) (m : M Completion) (x : string -> string) :
  backed L E m -> backed L E (try_catch m (fun e => ret (Done false (x e)))).
Proof. destruct m as [t [c | e]]; simpl; auto. Qed.

Lemma retry_calls_found (L : Lib) (E : Env) (rHex sHex : string) (cs : list Z) (tryV : Z) :
  find (candidate_matches L E rHex sHex) cs = Some tryV ->
  exists e, In e (retry_calls L E rHex sHex cs) /\ attempt_succeeded L E e.
Proof.
  induction cs as [ | c rest IH]; [ discriminate | ].
  cbn [find retry_calls].
  destruct (candidate_matches L E rHex sHex c) eqn:Hm.
  - intros _. unfold candidate_matches in Hm. unfold candidate_calls.
    destruct (ethers_Signature_from L rHex sHex c) as [sg | ]; [ | discriminate ].
    destruct (ethers_verifyMessage L (message E) (SigParts sg)) as [addr | ] eqn:Hv;
      [ | discriminate ].
    exists (Call_verifyMessage (message E) (SigParts sg)). split.
    + simpl. auto.
    + simpl. now exists addr.
  - intros Hf. destruct (IH Hf) as (e & Hin & He).
    exists e. split; [ | exact He ].
    apply in_or_app. now right.
Qed.

Lemma backed_evm_message (L : Lib) (E : Env) (sg : SignatureLike) :
  backed L E (verify_evm_message L E sg).
Proof.
  unfold verify_evm_message.
  destruct (ethers_verifyMessage L (message E) sg) as [addr | e] eqn:Hv;
    [ | exact I ].
  cbn [call bind].
  destruct (same_address addr _) eqn:Hsame; cbn [negb andb].
  - simpl. exists (Call_verifyMessage (message E) sg). split; [ now left | ].
    simpl. now exists addr.
  - destruct (andb _ _); [ | exact I ].
    rewrite try_candidates_run.
    destruct (find _ _) as [tryV | ] eqn:Hf; [ | exact I ].
    destruct (retry_calls_found _ _ _ _ _ _ Hf) as (e & Hin & He).
    simpl. exists e. split; [ | exact He ].
    right. rewrite app_nil_r. exact Hin.
Qed.

Lemma backed_solana_bytes (L : Lib) (E : Env) (m sg pk : bytes) :
  solana_pubKey L E = Ok pk ->
  backed L E (verify_solana_bytes L m sg pk).
Proof.
  intros Hpk. unfold verify_solana_bytes.
  destruct (nacl_sign_detached_verify L m sg pk) as [[ | ] | e] eqn:Hraw;
    cbn [call bind negb]; [ | | exact I ].
  - simpl. exists (Call_nacl_verify m sg pk). split; [ now left | now split ].
  - rewrite sha256_bytes. cbn [call bind].
    destruct (nacl_sign_detached_verify L (sha256_digest L _) sg pk)
      as [[ | ] | e] eqn:Hh; try exact I.
    simpl. eexists. split; [ right; right; left; reflexivity | now split ].
Qed.

Lemma backed_solana_message (L : Lib) (E : Env) (sg : option SignatureLike) :
  backed L E (verify_solana_message L E sg).
Proof.
  unfold verify_solana_message.
  destruct (solana_pubKey L E) as [pk | e] eqn:Hpk; [ | exact I ].
  apply backed_bind. intros m. apply backed_try_catch.
  apply backed_bind. intros x. apply backed_bind. intros sb.
  now apply backed_solana_bytes.
Qed.

Lemma backed_btc_message (L : Lib) (E : Env) (sg : option SignatureLike) :
  backed L E (verify_btc_message L E sg).
Proof.
  unfold verify_btc_message. apply backed_try_catch.
  apply backed_bind. intros m. apply backed_bind. intros x.
  destruct (bitcoinMessage_verify L m _ x) as [[ | ] | e] eqn:Hv;
    cbn [call bind]; try exact I.
  simpl. eexists. split; [ left; reflexivity | now split ].
Qed.

Lemma backed_near_message (L : Lib) (E : Env) (sg : option SignatureLike) :
  backed L E (verify_near_message L E sg).
Proof.
  unfold verify_near_message. apply backed_try_catch.
  destruct (near_PublicKey_from L (near_pubKeyStr L E)) as [pk | e] eqn:Hpk;
    [ | exact I ].
  rewrite bind_lift_ok. apply backed_bind. intros m.
  apply backed_bind. intros h. apply backed_bind. intros hb.
  apply backed_bind. intros x. apply backed_bind. intros sb.
  destruct (near_PublicKey_verify L pk hb sb) as [[ | ] | e] eqn:Hv;
    cbn [call bind]; try exact I.
  simpl. eexists. split; [ left; reflexivity | now split ].
Qed.

Lemma backed_dot_message (L : Lib) (E : Env) (sg : option SignatureLike) :
  backed L E (verify_dot_message L E sg).
Proof.
  unfold verify_dot_message. apply backed_try_catch.
  apply backed_bind. intros m. apply backed_bind. intros x.
  apply backed_bind. intros sb. apply backed_bind. intros _.
  apply backed_bind. intros _.
  destruct (signatureVerify_isValid L (blake2AsU8a_256 L m) sb _)
    as [[ | ] | e] eqn:Hv; cbn [call bind]; try exact I.
  simpl. eexists. split; [ left; reflexivity | now split ].
Qed.

Lemma backed_typed_data (L : Lib) (E : Env) (sg : SignatureLike) :
  backed L E (verify_typed_data L E sg).
Proof.
  unfold verify_typed_data.
  destruct (ethers_verifyTypedData L (typedData E) sg) as [addr | e] eqn:Hv;
    cbn [call bind]; [ | exact I ].
  destruct (same_address addr _) eqn:Hsame; simpl; [ | exact I ].
  eexists. split; [ left; reflexivity | ]. simpl. now exists addr.
Qed.

Lemma backed_body (L : Lib) (E : Env) :
  scheme_backed (chain E) (signType E) = true ->
  backed L E (verify_body L E).
Proof.
  intros Hs. unfold verify_body. apply backed_bind. intros sg.
  destruct (signType E) eqn:Ht; try discriminate Hs.
  - unfold verify_message.
    destruct (chain E); try discriminate Hs.
    + destruct (signature_truthy sg); [ destruct sg | ]; try exact I.
      apply backed_evm_message.
    + apply backed_btc_message.
    + apply backed_solana_message.
    + apply backed_near_message.
    + apply backed_dot_message.
  - destruct (chain E); try discriminate Hs.
    destruct (signature_truthy sg) eqn:Hsg; [ destruct sg | ].
    + apply backed_typed_data.
    + discriminate Hsg.
    + exact I.
Qed.

Lemma in_outcomes (t : list Event) (vr : VerificationResult) :
  In (SetVerificationResult vr) t -> In vr (outcomes t).
Proof.
  induction t as [ | e t IH]; simpl; [ auto | ].
  intros [-> | Hin]; [ now left | ].
  destruct e; simpl; auto.
Qed.

Lemma final_result_verified (b : bool) (x : string) :
  status (final_result b x) = verified -> b = true.
Proof. now destruct b. Qed.

(** C4, as stated, fails: a Cosmos message with a one-byte signature is
    reported [verified] although no scheme check was made at all. *)
Lemma cosmos_verified_without_check :
  outcomes (fst (verify RefLib.lib Examples.cosmos_one_byte)) =
  [pending_result;
   mkVerificationResult verified (Some "Cosmos signature presence confirmed")] /\
  ~ (exists e, In e (fst (verify RefLib.lib Examples.cosmos_one_byte)) /\
               attempt_succeeded RefLib.lib Examples.cosmos_one_byte e).
Proof.
  split; [ reflexivity | ].
  intros (e & Hin & He). simpl in Hin.
  destruct Hin as [<- | [<- | []]]; exact He.
Qed.

(** C4 (amended): for a message on EVM, Bitcoin, Solana, NEAR or Substrate
    and for typed data on EVM, the outcome is [verified] only if the trace
    holds a scheme check that succeeded against the identity of the wallet:
    an address recovered equal to the wallet address up to letter case, or
    a signature check against the key or address of the wallet that
    returned [true]. *)
Theorem verified_rests_on_scheme_check (L : Lib) (E : Env) (vr : VerificationResult) :
  scheme_backed (chain E) (signType E) = true ->
  In (SetVerificationResult vr) (fst (verify L E)) ->
  status vr = verified ->
  exists e, In e (fst (verify L E)) /\ attempt_succeeded L E e.
Proof.
  intros Hs Hin Hv.
  destruct (signature_present (result E)) eqn:Hg.
  2:{ rewrite (verify_guarded L E Hg) in Hin. destruct Hin. }
  rewrite (verify_unguarded L E Hg) in *.
  pose proof (well_formed_body L E) as Hw.
  pose proof (backed_body L E Hs) as Hb.
  destruct (verify_body L E) as [t [[b x | ] | e]]; simpl in *.
  - destruct Hin as [[= <-] | Hin]; [ discriminate Hv | ].
    apply in_app_or in Hin. destruct Hin as [Hin | [[= <-] | []]].
    + apply in_outcomes in Hin. rewrite Hw in Hin. destruct Hin.
    + apply final_result_verified in Hv. subst b.
      destruct Hb as (e & He & Hok). exists e. split; [ | exact Hok ].
      right. apply in_or_app. now left.
  - destruct Hw as (t' & vr' & -> & Hq & Hst & _).
    destruct Hin as [[= <-] | Hin]; [ discriminate Hv | ].
    rewrite app_nil_r in Hin. apply in_app_or in Hin.
    destruct Hin as [Hin | [[= <-] | []]].
    + apply in_outcomes in Hin. rewrite Hq in Hin. destruct Hin.
    + congruence.
  - destruct Hin as [[= <-] | Hin]; [ discriminate Hv | ].
    apply in_app_or in Hin. destruct Hin as [Hin | [[= <-] | []]].
    + apply in_outcomes in Hin. rewrite Hw in Hin. destruct Hin.
    + discriminate Hv.
Qed.

Lemma verified_rests_on_scheme_check_witness :
  exists e, In e (fst (verify RefLib.lib Examples.near_signed)) /\
            attempt_succeeded RefLib.lib Examples.near_signed e.
Proof.
  apply (verified_rests_on_scheme_check RefLib.lib Examples.near_signed
           (mkVerificationResult verified (Some "NEAR signature verified")));
    [ reflexivity | vm_compute; tauto | reflexivity ].
Defined.

(** ** The decoder of Solana signature strings *)

Lemma hex_char_value (c : ascii) :
  Js.is_hex_char c = true -> exists d, Hex.digit_value c = Some d.
Proof.
  destruct c as [[] [] [] [] [] [] [] []]; simpl; intros H;
    try discriminate H; eexists; reflexivity.
Qed.

Lemma decode_even (n : nat) (x : string) :
  String.length x = 2 * n -> Js.all_hex x = true ->
  exists bs, Hex.decode x = Some bs /\ List.length bs = n.
Proof.
  revert x. induction n as [ | n IH]; intros x Hlen Hhex.
  - destruct x; [ | discriminate Hlen ]. now exists [].
  - destruct x as [ | a [ | b rest]]; try discriminate Hlen.
    + simpl in Hlen. lia.
    + simpl in Hhex.
      apply andb_true_iff in Hhex. destruct Hhex as [Ha Hhex].
      apply andb_true_iff in Hhex. destruct Hhex as [Hb Hhex].
      destruct (hex_char_value a Ha) as [h Hh].
      destruct (hex_char_value b Hb) as [l Hl].
      destruct (IH rest) as (bs & Hd & Hn); [ simpl in Hlen; lia | exact Hhex | ].
      exists (Hex.byte_of_N (16 * h + l) :: bs).
      cbn [Hex.decode]. rewrite Hh, Hl, Hd. simpl. now rewrite Hn.
Qed.

(** C6, as stated, fails: with no encoding hint, a base64 string that is
    neither hex nor base58 is not decoded as base64 or as text; the decoder
    throws, and the verification fails on it. *)
Lemma base64_signature_throws :
  decode_solana_signature RefLib.lib Examples.base64_signature =
  Throw "Signature is not valid Hex or Base58" /\
  verify RefLib.lib Examples.solana_base64 =
  ([SetVerificationResult pending_result;
    SetVerificationResult
      (mkVerificationResult failed
         (Some "Solana verify error: Signature is not valid Hex or Base58"))],
   Ok tt).
Proof. split; reflexivity. Qed.

(** C6 (amended): the decoder of Solana signature strings, which takes no
    encoding hint, probes in this order.  A string of 128 hex digits, with
    or without "0x", is read as hex and gives 64 bytes.  Any other string is
    read as base58 when it is base58.  When it is not base58 but is made of
    hex digits it is read as hex, and the error of [ethers.getBytes] is
    thrown when that fails.  Otherwise "Signature is not valid Hex or
    Base58" is thrown: there is no base64 and no UTF-8 fallback. *)
Theorem solana_signature_probing (L : Lib) (sigStr : string) :
  let cleanHex := without_0x sigStr in
  let hex128 := andb (Js.test_hex_plus cleanHex)
                     (Nat.eqb (String.length cleanHex) 128) in
  (hex128 = true ->
   exists bs, decode_solana_signature L sigStr = Ok bs /\
              Hex.decode cleanHex = Some bs /\ List.length bs = 64) /\
  (hex128 = false ->
   forall bs, Bs58.decode sigStr = Ok bs ->
              decode_solana_signature L sigStr = Ok bs) /\
  (hex128 = false ->
   forall e, Bs58.decode sigStr = Throw e ->
     Js.test_hex_plus cleanHex = true ->
     decode_solana_signature L sigStr =
     match Hex.decode cleanHex with
     | Some bs => Ok bs
     | None => Throw (ethers_invalid_BytesLike L (with_0x sigStr))
     end) /\
  (forall e, Bs58.decode sigStr = Throw e ->
     Js.test_hex_plus cleanHex = false ->
     decode_solana_signature L sigStr =
     Throw "Signature is not valid Hex or Base58").
Proof.
  intros cleanHex hex128.
  unfold decode_solana_signature. fold cleanHex. fold hex128.
  unfold ethers_getBytes. rewrite decode_with_0x. fold cleanHex.
  repeat split.
  - intros H. rewrite H. subst hex128.
    apply andb_true_iff in H. destruct H as [Hhex Hlen].
    apply Nat.eqb_eq in Hlen.
    unfold Js.test_hex_plus in Hhex.
    apply andb_true_iff in Hhex. destruct Hhex as [_ Hhex].
    destruct (decode_even 64 cleanHex Hlen Hhex) as (bs & Hd & Hn).
    exists bs. now rewrite Hd.
  - intros H bs Hb. now rewrite H, Hb.
  - intros H e Hb Hhex. now rewrite H, Hb, Hhex.
  - intros e Hb Hhex. subst hex128. now rewrite Hhex, Hb.
Qed.

Lemma solana_signature_probing_witness :
  exists bs,
    decode_solana_signature RefLib.lib Examples.solana_hashed_signature = Ok bs /\
    Hex.decode (without_0x Examples.solana_hashed_signature) = Some bs /\
    List.length bs = 64.
Proof.
  apply (proj1 (solana_signature_probing RefLib.lib
                  Examples.solana_hashed_signature)).
  reflexivity.
Defined.

(** ** Signatures of a wrong length *)





(** ** Further behaviour of [verify] *)

Lemma try_candidates_env (L : Lib) (E E' : Env) (rHex sHex : string) (cs : list Z) :
  message E' = message E ->
  selectedWalletData E' = selectedWalletData E ->
  try_candidates L E' rHex sHex cs = try_candidates L E rHex sHex cs.
Proof.
  intros Hm Hw. induction cs as [ | tryV rest IH]; [ reflexivity | ].
  cbn [try_candidates]. now rewrite Hm, Hw, IH.
Qed.

(** X1: on EVM the hex toggle is never read: the message is handed to
    [ethers.verifyMessage] as text whether or not it is declared
    hex-encoded, so the whole run is the same for both settings. *)
Theorem evm_ignores_hex_toggle (L : Lib) (E : Env) (b : bool) :
  chain E = evm ->
  verify L (with_encodedByHex E b) = verify L E.
Proof.
  intros Hc. destruct E as [res ch w st m td hx]. simpl in Hc. subst ch.
  unfold with_encodedByHex, verify, verify_body, verify_message,
    verify_evm_message, verify_typed_data, reconstruct.
  cbn [result chain selectedWalletData signType message typedData encodedByHex].
  rewrite (try_candidates_env L (mkEnv res evm w st m td hx)
             (mkEnv res evm w st m td b)) by reflexivity.
  reflexivity.
Qed.

Lemma evm_ignores_hex_toggle_witness :
  verify RefLib.lib (with_encodedByHex Examples.evm_flipped true)
  = verify RefLib.lib Examples.evm_flipped.
Proof.
  apply (evm_ignores_hex_toggle RefLib.lib Examples.evm_flipped true).
  reflexivity.
Defined.

Lemma sigStr_forget (res : SignResult.t) :
  sigStr_of (forget_components res) = sigStr_of res.
Proof.
  unfold sigStr_of, forget_components. simpl.
  now destruct (SignResult.signature res) as [[x | nested r s v] | ].
Qed.

Lemma present_forget (res : SignResult.t) :
  signature_present (forget_components res) = signature_present res.
Proof.
  unfold signature_present, forget_components. simpl.
  now destruct (SignResult.signature res) as [[x | nested r s v] | ].
Qed.

(** X2: on every chain but EVM the components [r], [s] and [v] of the
    signing result are never read: removing them, at the top level and in
    the nested object, leaves the whole run unchanged. *)
Theorem components_read_on_evm_only (L : Lib) (E : Env) :
  chain E <> evm ->
  verify L (with_result E (forget_components (result E))) = verify L E.
Proof.
  intros Hne.
  pose proof (sigStr_forget (result E)) as Hs.
  pose proof (present_forget (result E)) as Hp.
  destruct E as [res ch w st m td hx]. simpl in *.
  unfold with_result, verify.
  cbn [result chain selectedWalletData signType message typedData encodedByHex].
  rewrite !guard_signature_present, Hp.
  destruct (signature_present res) eqn:Hg; [ | reflexivity ].
  unfold signature_present in Hp, Hg.
  cbn [negb]. unfold verify_body.
  rewrite !reconstruct_not_evm by exact Hne.
  unfold stripped_signature.
  cbn [result chain selectedWalletData signType message typedData encodedByHex].
  rewrite Hs, Hp, Hg.
  destruct ch; try (now elim Hne); destruct st; reflexivity.
Qed.

Lemma components_read_on_evm_only_witness :
  r_of (result Examples.near_signed_with_components) = Some Examples.evm_r /\
  s_of (result Examples.near_signed_with_components) = Some Examples.evm_s /\
  v_of (result Examples.near_signed_with_components) = Some 1%Z /\
  r_of (forget_components (result Examples.near_signed_with_components)) = None /\
  s_of (forget_components (result Examples.near_signed_with_components)) = None /\
  v_of (forget_components (result Examples.near_signed_with_components)) = None /\
  verify RefLib.lib
    (with_result Examples.near_signed_with_components
       (forget_components (result Examples.near_signed_with_components)))
  = verify RefLib.lib Examples.near_signed_with_components.
Proof.
  do 6 (split; [ reflexivity | ]).
  apply (components_read_on_evm_only RefLib.lib
           Examples.near_signed_with_components).
  discriminate.
Defined.

(** X3: a Solana wallet whose public key cannot be parsed ends the run at
    once: the outcome is [failed] with "Invalid Solana Public Key: " and
    the message of the error, and neither the message nor the signature is
    looked at, so no check is made. *)
Theorem solana_invalid_public_key (L : Lib) (E : Env) (e : string) :
  chain E = sol ->
  signType E = message_t ->
  signature_present (result E) = true ->
  solana_pubKey L E = Throw e ->
  verify L E =
  ([SetVerificationResult pending_result;
    SetVerificationResult
      (mkVerificationResult failed (Some ("Invalid Solana Public Key: " ++ e)))],
   Ok tt).
Proof.
  intros Hc Ht Hg Hpk.
  assert (Hne : chain E <> evm) by (rewrite Hc; discriminate).
  start_verify Hg. rewrite (reconstruct_not_evm L E Hne), Ht.
  unfold verify_message, verify_solana_message. rewrite Hc, Hpk.
  reflexivity.
Qed.

Lemma solana_invalid_public_key_witness :
  verify RefLib.lib Examples.solana_long_key =
  ([SetVerificationResult pending_result;
    SetVerificationResult
      (mkVerificationResult failed
         (Some "Invalid Solana Public Key: Invalid public key input"))],
   Ok tt).
Proof.
  apply (solana_invalid_public_key RefLib.lib Examples.solana_long_key);
    reflexivity.
Defined.

(** X4: a message that is declared hex-encoded but is not "0x" followed by
    pairs of hex digits fails the verification before any check, and the
    explanation depends on the chain: on Solana the bytes are computed
    outside the inner [try], so the error surfaces as "Verification logic
    error: "; on Bitcoin, NEAR and Substrate it is caught by the branch and
    carries the prefix of the chain. *)
Theorem undecodable_message_is_reported (L : Lib) (E : Env) :
  let e := ethers_invalid_BytesLike L (message E) in
  let failed_with (x : string) :=
    ([SetVerificationResult pending_result;
      SetVerificationResult (mkVerificationResult failed (Some x))],
     Ok tt) in
  signType E = message_t ->
  signature_present (result E) = true ->
  encodedByHex E = true ->
  Hex.decode_0x (message E) = None ->
  (chain E = sol ->
   forall pk, solana_pubKey L E = Ok pk ->
   verify L E = failed_with ("Verification logic error: " ++ e)) /\
  (chain E = btc ->
   verify L E = failed_with ("BTC verify error: " ++ e)) /\
  (chain E = near ->
   forall pk, near_PublicKey_from L (near_pubKeyStr L E) = Ok pk ->
   verify L E = failed_with ("NEAR verify error: " ++ e)) /\
  (chain E = dot ->
   verify L E = failed_with ("Substrate verify error: " ++ e)).
Proof.
  intros e failed_with Ht Hg Hx Hd.
  assert (Hm : msgBytes_of L E = Throw e).
  { unfold msgBytes_of, ethers_getBytes. now rewrite Hx, Hd. }
  assert (Hb : btc_msg_of L E = Throw e).
  { unfold btc_msg_of, ethers_getBytes. now rewrite Hx, Hd. }
  split; [ | split; [ | split ] ]; intros Hc.
  - intros pk Hpk.
    assert (Hne : chain E <> evm) by (rewrite Hc; discriminate).
    start_verify Hg. rewrite (reconstruct_not_evm L E Hne), Ht.
    unfold verify_message, verify_solana_message. rewrite Hc, Hpk, Hm.
    reflexivity.
  - assert (Hne : chain E <> evm) by (rewrite Hc; discriminate).
    start_verify Hg. rewrite (reconstruct_not_evm L E Hne), Ht.
    unfold verify_message, verify_btc_message. rewrite Hc, Hb.
    reflexivity.
  - intros pk Hpk.
    assert (Hne : chain E <> evm) by (rewrite Hc; discriminate).
    start_verify Hg. rewrite (reconstruct_not_evm L E Hne), Ht.
    unfold verify_message, verify_near_message. rewrite Hc, Hpk, Hm.
    reflexivity.
  - assert (Hne : chain E <> evm) by (rewrite Hc; discriminate).
    start_verify Hg. rewrite (reconstruct_not_evm L E Hne), Ht.
    unfold verify_message, verify_dot_message. rewrite Hc, Hm.
    reflexivity.
Qed.

Lemma undecodable_message_is_reported_witness :
  verify RefLib.lib Examples.near_bare_hex_message =
  ([SetVerificationResult pending_result;
    SetVerificationResult
      (mkVerificationResult failed
         (Some "NEAR verify error: invalid BytesLike value"))],
   Ok tt).
Proof.
  destruct (undecodable_message_is_reported RefLib.lib
              Examples.near_bare_hex_message eq_refl eq_refl eq_refl eq_refl)
    as (_ & _ & Hnear & _).
  exact (Hnear eq_refl _ eq_refl).
Defined.

(** X5: on EVM, without [r] and [s], the signature string is used with
    "0x" in front.  A string of 64 bytes gets one more byte when [v] is
    known: "1b" when [v] is 0 or 27 and "1c" for every other [v]; a string
    of any other length is left as it is.  No package is called. *)
Theorem evm_combined_signature (L : Lib) (E : Env) :
  let cleanSig := with_0x (sigStr_of (result E)) in
  chain E = evm ->
  andb (Js.truthy (r_of (result E))) (Js.truthy (s_of (result E))) = false ->
  Js.is_empty (sigStr_of (result E)) = false ->
  reconstruct L E =
  ([], Ok (Some (SigHex
     match v_of (result E) with
     | Some n =>
         if Nat.eqb (String.length cleanSig) 130
         then cleanSig ++ (if orb (n =? 0)%Z (n =? 27)%Z then "1b" else "1c")
         else cleanSig
     | None => cleanSig
     end))).
Proof.
  intros cleanSig Hc Hrs Hs. unfold reconstruct.
  rewrite Hc, Hrs, Hs. cbn [negb]. fold cleanSig.
  destruct (Nat.eqb (String.length cleanSig) 130);
    destruct (v_of (result E)) as [n | ]; try reflexivity.
  unfold vNormalized.
  replace (orb (n =? 0)%Z (n =? 27)%Z)
    with ((if (n <? 27)%Z then (n + 27)%Z else n) =? 27)%Z; [ reflexivity | ].
  destruct (Z.ltb_spec n 27), (Z.eqb_spec n 0), (Z.eqb_spec n 27);
    simpl; try lia; apply Z.eqb_neq || apply Z.eqb_eq; lia.
Qed.

Lemma evm_combined_signature_witness :
  reconstruct RefLib.lib Examples.evm_compact =
  ([], Ok (Some (SigHex
     ("0x1111111111111111111111111111111111111111111111111111111111111111"
      ++ "000000000000000000000000abcdefabcdefabcdefabcdefabcdefabcdefabcd"
      ++ "1c")))).
Proof.
  apply (evm_combined_signature RefLib.lib Examples.evm_compact); reflexivity.
Defined.

(** X6: typed data on EVM is decided by one call of
    [ethers.verifyTypedData]: [verified] when the recovered address is the
    wallet address up to letter case, [failed] otherwise, each with the
    default explanation; an error of the call gives "Verification logic
    error: ".  Unlike a message, no other [v] is tried. *)
Theorem evm_typed_data (L : Lib) (E : Env) (t : list Event) (sg : SignatureLike) :
  let wallet := Wallet.address (selectedWalletData E) in
  chain E = evm ->
  signType E = typed_data ->
  signature_present (result E) = true ->
  reconstruct L E = (t, Ok (Some sg)) ->
  signature_truthy (Some sg) = true ->
  verify L E =
  (SetVerificationResult pending_result
     :: t ++ [Call_verifyTypedData (typedData E) sg;
              SetVerificationResult
                match ethers_verifyTypedData L (typedData E) sg with
                | Ok addr =>
                    if same_address addr wallet
                    then mkVerificationResult verified
                           (Some "Signature matches selected wallet address")
                    else mkVerificationResult failed
                           (Some "Signature verification failed")
                | Throw e =>
                    mkVerificationResult failed
                      (Some ("Verification logic error: " ++ e))
                end],
   Ok tt).
Proof.
  intros wallet Hc Ht Hg Hr Hsg.
  start_verify Hg. rewrite Hr. cbn [bind]. rewrite Ht, Hc, Hsg.
  unfold verify_typed_data. fold wallet.
  destruct (ethers_verifyTypedData L (typedData E) sg) as [addr | e];
    cbn [bind call ret try_catch setVerificationResult fst snd app].
  - rewrite <- ?app_assoc. cbn [app].
    now destruct (same_address addr wallet).
  - now rewrite <- ?app_assoc.
Qed.

Lemma evm_typed_data_witness :
  verify RefLib.lib Examples.evm_typed =
  ([SetVerificationResult pending_result;
    Call_Signature_from Examples.evm_r Examples.evm_s 28;
    Call_verifyTypedData "{}"
      (SigParts (mkEthSignature Examples.evm_r Examples.evm_s 28));
    SetVerificationResult
      (mkVerificationResult verified
         (Some "Signature matches selected wallet address"))],
   Ok tt).
Proof.
  apply (evm_typed_data RefLib.lib Examples.evm_typed
           [Call_Signature_from Examples.evm_r Examples.evm_s 28]
           (SigParts (mkEthSignature Examples.evm_r Examples.evm_s 28)));
    reflexivity.
Defined.

Lemma encode_not_empty (content : string) :
  content <> EmptyString ->
  Js.is_empty (Hex.encode (Js.TextEncoder_encode content)) = false.
Proof. destruct content; [ now intros H | reflexivity ]. Qed.

(** X7: the message the builder writes is read back, by the verification,
    as the bytes of the text typed into the builder: with the hex toggle
    on, a non-empty text becomes "0x" and its bytes in hex, which
    [ethers.getBytes] decodes to those bytes; with the toggle off the text
    is used as it is.  An empty text with the toggle on becomes the empty
    string, which [ethers.getBytes] rejects. *)
Theorem builder_message_round_trip (L : Lib) (E : Env) (content : string) :
  (content <> EmptyString ->
   msgBytes_of L (with_message E (builder_message content true) true)
   = Ok (list_byte_of_string content)) /\
  msgBytes_of L (with_message E (builder_message content false) false)
  = Ok (list_byte_of_string content) /\
  msgBytes_of L (with_message E (builder_message EmptyString true) true)
  = Throw (ethers_invalid_BytesLike L EmptyString).
Proof.
  split; [ | split ]; try reflexivity.
  intros Hne. unfold builder_message, msgBytes_of. simpl.
  rewrite (encode_not_empty content Hne). simpl.
  exact (getBytes_hexlify L (Js.TextEncoder_encode content)).
Qed.

Lemma builder_message_round_trip_witness :
  msgBytes_of RefLib.lib
    (with_message Examples.near_signed (builder_message "Hi" true) true)
  = Ok (list_byte_of_string "Hi").
Proof.
  apply (proj1 (builder_message_round_trip RefLib.lib Examples.near_signed "Hi")).
  discriminate.
Defined.

(** X8: the string handed to [PublicKey.from] on NEAR is empty when the
    wallet has no public key, and otherwise always holds a colon: a key of
    64 characters (after "0x") is read as hex and re-encoded in base58
    behind "ed25519:", another key without a colon gets "ed25519:" in
    front, and another key with a colon is kept. *)
Theorem near_key_string_shape (L : Lib) (E : Env) :
  let key := Wallet.publicKey (selectedWalletData E) in
  (Js.truthy key = false -> near_pubKeyStr L E = EmptyString) /\
  (Js.truthy key = true ->
   Js.includes_char ":" (near_pubKeyStr L E) = true) /\
  (forall k : string,
     key = Some k -> k <> EmptyString ->
     let hex := if Js.startsWith "0x" k then Js.slice 2 k else k in
     (String.length hex = 64 ->
      near_pubKeyStr L E = "ed25519:" ++ bs58_encode L (Buffer_from_hex L hex)) /\
     (String.length hex <> 64 -> Js.includes_char ":" k = false ->
      near_pubKeyStr L E = "ed25519:" ++ k) /\
     (String.length hex <> 64 -> Js.includes_char ":" k = true ->
      near_pubKeyStr L E = k)).
Proof.
  intros key. subst key. unfold near_pubKeyStr, Js.or_else, without_0x.
  destruct (Wallet.publicKey (selectedWalletData E)) as [[ | c k] | ];
    cbn [Js.truthy Js.is_empty negb as_string].
  - split; [ reflexivity | ]. split; [ discriminate | ].
    intros k [= <-] Hk. now elim Hk.
  - split; [ discriminate | ]. split.
    + intros _.
      destruct (Nat.eqb _ 64); [ reflexivity | ].
      destruct (Js.includes_char ":" (String c k)) eqn:Hi; cbn [negb];
        [ exact Hi | reflexivity ].
    + intros k' [= <-] _. cbv zeta.
      destruct (Nat.eqb_spec
                  (String.length (if Js.startsWith "0x" (String c k)
                                  then Js.slice 2 (String c k) else String c k)) 64)
        as [Hlen | Hlen].
      * split; [ reflexivity | ]. split; intros Hn; now elim Hn.
      * split; [ intros Hn; now elim Hlen | ].
        split; intros _ ->; reflexivity.
  - split; [ reflexivity | ]. split; discriminate.
Qed.

Lemma near_key_string_shape_witness :
  near_pubKeyStr RefLib.lib Examples.near_signed
  = "ed25519:8qbHbw2BbbTHBW1sbeqakYXVKRQM8Ne7pLK7m6CVfeR".
Proof.
  refine (proj2 (proj2 (proj2 (proj2
            (near_key_string_shape RefLib.lib Examples.near_signed))
            "ed25519:8qbHbw2BbbTHBW1sbeqakYXVKRQM8Ne7pLK7m6CVfeR"
            eq_refl _)) _ eq_refl);
    vm_compute; discriminate.
Defined.

Lemma all_hex_no_prefix (x : string) :
  Js.all_hex x = true -> Js.startsWith "0x" x = false.
Proof.
  unfold Js.startsWith.
  destruct x as [ | a [ | b rest]]; cbn [String.prefix Js.all_hex]; intros H.
  - reflexivity.
  - now destruct (ascii_dec "0" a).
  - destruct (ascii_dec "0" a); [ | reflexivity ].
    destruct (ascii_dec "x" b) as [<- | ]; [ | reflexivity ].
    apply andb_true_iff in H. destruct H as [_ H].
    apply andb_true_iff in H. destruct H as [H _]. discriminate H.
Qed.

(** X9: on NEAR and Substrate a signature string of 128 hex digits is read
    as hex and gives the 64 bytes it spells; [fromBase64] is not called. *)
Theorem signature_of_128_hex_digits (L : Lib) (sigStr : string) :
  Js.all_hex sigStr = true ->
  String.length sigStr = 128 ->
  exists bs,
    decode_hex_or_base64 L sigStr = Ok bs /\
    Hex.decode sigStr = Some bs /\ List.length bs = 64.
Proof.
  intros Hhex Hlen.
  destruct (decode_even 64 sigStr Hlen Hhex) as (bs & Hd & Hn).
  exists bs. repeat split; try assumption.
  unfold decode_hex_or_base64, ethers_getBytes.
  rewrite Hlen, orb_true_r, decode_with_0x.
  unfold without_0x. now rewrite (all_hex_no_prefix sigStr Hhex), Hd.
Qed.

Lemma signature_of_128_hex_digits_witness :
  exists bs,
    decode_hex_or_base64 RefLib.lib Examples.near_signature = Ok bs /\
    Hex.decode Examples.near_signature = Some bs /\ List.length bs = 64.
Proof.
  apply (signature_of_128_hex_digits RefLib.lib Examples.near_signature);
    reflexivity.
Defined.

Lemma lower_char_idempotent (c : ascii) :
  Js.lower_char (Js.lower_char c) = Js.lower_char c.
Proof. destruct c as [[] [] [] [] [] [] [] []]; reflexivity. Qed.

Lemma toLowerCase_idempotent (x : string) :
  Js.toLowerCase (Js.toLowerCase x) = Js.toLowerCase x.
Proof.
  induction x as [ | c x IH]; [ reflexivity | ].
  simpl. now rewrite lower_char_idempotent, IH.
Qed.

(** X10: the comparison of a recovered address with the wallet address is
    an equivalence that does not see the case of ASCII letters: putting
    either side in lower case does not change its result. *)
Theorem same_address_ignores_case (a b c : string) :
  same_address a a = true /\
  same_address a b = same_address b a /\
  (same_address a b = true -> same_address b c = true ->
   same_address a c = true) /\
  same_address (Js.toLowerCase a) b = same_address a b /\
  same_address a (Js.toLowerCase b) = same_address a b.
Proof.
  unfold same_address. repeat split.
  - apply String.eqb_refl.
  - apply String.eqb_sym.
  - intros H1 H2. apply String.eqb_eq in H1. apply String.eqb_eq in H2.
    apply String.eqb_eq. congruence.
  - now rewrite toLowerCase_idempotent.
  - now rewrite toLowerCase_idempotent.
Qed.

Lemma same_address_ignores_case_witness :
  same_address "0xabcdef" "0xAbCdEf" = true.
Proof.
  apply (proj1 (proj2 (proj2
           (same_address_ignores_case "0xabcdef" "0xABCDEF" "0xAbCdEf"))));
    reflexivity.
Defined.

(** ** What is sent to be signed *)

Lemma length_append (a b : string) :
  String.length (a ++ b) = String.length a + String.length b.
Proof. induction a as [ | c a IH]; simpl; [ reflexivity | now rewrite IH ]. Qed.

Lemma append_empty (a : string) : a ++ EmptyString = a.
Proof. induction a as [ | c a IH]; simpl; [ reflexivity | now rewrite IH ]. Qed.

Lemma length_pad (k : nat) : String.length (JsText.pad k) = k.
Proof. induction k as [ | k IH]; simpl; [ reflexivity | now rewrite IH ]. Qed.

Lemma missing_padding (n : nat) :
  let k := Nat.modulo (4 - Nat.modulo n 4) 4 in
  k <= 3 /\ Nat.modulo (n + k) 4 = 0.
Proof.
  intros k. subst k.
  pose proof (Nat.mod_upper_bound n 4 ltac:(discriminate)) as Hr.
  split.
  - pose proof (Nat.mod_upper_bound (4 - Nat.modulo n 4) 4 ltac:(discriminate)).
    lia.
  - rewrite Nat.Div0.add_mod.
    destruct (Nat.modulo n 4) as [ | [ | [ | [ | r]]]]; try reflexivity; lia.
Qed.

(** X11: text made of base64 characters leaves the padding step with a
    length that is a multiple of four: at most three "=" are put after it
    and nothing else is changed. *)
Theorem add_padding_length (normalized : string) :
  JsText.test_base64_plus normalized = true ->
  Nat.modulo (String.length (add_padding normalized)) 4 = 0 /\
  exists k, k <= 3 /\ add_padding normalized = normalized ++ JsText.pad k.
Proof.
  intros Ht. unfold add_padding. rewrite Ht.
  destruct (missing_padding (String.length normalized)) as [Hk Hm].
  set (k := Nat.modulo (4 - Nat.modulo (String.length normalized) 4) 4) in *.
  destruct (Nat.ltb_spec 0 k) as [Hpos | Hzero].
  - unfold JsText.padEnd. rewrite length_append, length_pad.
    split; [ exact Hm | now exists k ].
  - assert (k = 0) by lia. split.
    + replace (String.length normalized) with (String.length normalized + k) by lia.
      exact Hm.
    + exists 0. split; [ lia | ]. cbn [JsText.pad].
      now rewrite append_empty.
Qed.

Lemma add_padding_length_witness :
  Nat.modulo (String.length (add_padding "SGVsbG8")) 4 = 0 /\
  exists k, k <= 3 /\ add_padding "SGVsbG8" = "SGVsbG8" ++ JsText.pad k.
Proof. apply (add_padding_length "SGVsbG8"). reflexivity. Defined.

Lemma padded_not_base64 (x : string) (k : nat) :
  JsText.all_base64 (x ++ JsText.pad (S k)) = false.
Proof.
  induction x as [ | c x IH]; [ reflexivity | ].
  cbn [append JsText.all_base64]. rewrite IH. apply andb_false_r.
Qed.

Lemma add_padding_cases (x : string) :
  add_padding x = x \/ exists k, add_padding x = x ++ JsText.pad (S k).
Proof.
  unfold add_padding, JsText.padEnd.
  destruct (JsText.test_base64_plus x); [ | now left ].
  destruct (Nat.ltb_spec 0 (Nat.modulo (4 - Nat.modulo (String.length x) 4) 4))
    as [Hpos | Hzero]; [ | now left ].
  right.
  destruct (Nat.modulo (4 - Nat.modulo (String.length x) 4) 4) as [ | k];
    [ lia | now exists k ].
Qed.

(** X12: the padding step changes nothing when it is applied again. *)
Theorem add_padding_idempotent (normalized : string) :
  add_padding (add_padding normalized) = add_padding normalized.
Proof.
  destruct (add_padding_cases normalized) as [H | [k H]]; rewrite H.
  - exact H.
  - unfold add_padding, JsText.test_base64_plus.
    now rewrite padded_not_base64, andb_false_r.
Qed.

Lemma encode_length_bounded (n : nat) (bs : bytes) :
  List.length bs <= n ->
  Nat.modulo (String.length (Base64.encode bs)) 4 = 0.
Proof.
  revert bs. induction n as [ | n IH]; intros bs Hn.
  - destruct bs; [ reflexivity | simpl in Hn; lia ].
  - destruct bs as [ | a [ | b [ | c rest]]]; try reflexivity.
    cbn [Base64.encode String.length].
    change (S (S (S (S (String.length (Base64.encode rest))))))
      with (4 + String.length (Base64.encode rest)).
    rewrite Nat.Div0.add_mod, IH by (simpl in Hn; lia).
    reflexivity.
Qed.

Lemma encode_length (bs : bytes) :
  Nat.modulo (String.length (Base64.encode bs)) 4 = 0.
Proof. now apply (encode_length_bounded (List.length bs)). Qed.

Lemma encode_empty (bs : bytes) :
  Base64.encode bs = EmptyString <-> bs = [].
Proof.
  split; [ | now intros -> ].
  destruct bs as [ | a [ | b [ | c rest]]]; [ reflexivity | | | ]; discriminate.
Qed.

(** The text that [buffer.toString('base64')] gives is already padded. *)
Lemma add_padding_encode (bs : bytes) :
  add_padding (Base64.encode bs) = Base64.encode bs.
Proof.
  unfold add_padding.
  destruct (JsText.test_base64_plus _); [ | reflexivity ].
  now rewrite encode_length.
Qed.

Lemma json_text_encoded (x : string) :
  orb (Js.startsWith "{" x) (Js.startsWith "[" x) = true ->
  Js.startsWith "0x" (Base64.encode (Js.TextEncoder_encode x)) = false.
Proof.
  unfold Js.startsWith.
  destruct x as [ | c x]; [ discriminate | ].
  cbn [String.prefix].
  destruct (ascii_dec "{" c) as [<- | ];
    [ | destruct (ascii_dec "[" c) as [<- | ]; [ | discriminate ] ];
    intros _; unfold Js.TextEncoder_encode;
    match goal with
    | |- context [ list_byte_of_string (String ?c x) ] =>
        change (list_byte_of_string (String c x))
          with (byte_of_ascii c :: list_byte_of_string x)
    end;
    destruct (list_byte_of_string x) as [ | b [ | d rest]]; reflexivity.
Qed.

Lemma json_step_skips_hex {Json : Type} (parse : string -> Result Json) (x : string) :
  Js.startsWith "0x" x = true -> json_to_base64 Json parse x = x.
Proof.
  intros H. unfold json_to_base64.
  rewrite (starts_with_0x x H). reflexivity.
Qed.

(** X13: on NEAR, Solana and Cosmos an encoded transaction given as "0x"
    and hex digits, blanks around it apart, is sent as the base64 of the
    bytes that [Buffer.from(hex, 'hex')] reads: the JSON step does not
    apply and the padding step leaves the base64 text alone.  A delegate
    action on NEAR goes the same way. *)
Theorem hex_input_is_sent_as_base64
  (L : Lib) (Json : Type) (parse : string -> Result Json)
  (c : ChainType) (data hex : string) :
  c = near \/ c = sol \/ c = cosmos ->
  JsText.trim data = "0x" ++ hex ->
  Js.all_hex hex = true ->
  normalize_transaction L Json parse (Some c) data
  = Base64.encode (Buffer_from_hex L hex) /\
  normalize_delegate L Json parse (Some near) data
  = Base64.encode (Buffer_from_hex L hex).
Proof.
  intros Hc Ht Hhex.
  assert (H : add_padding (hex_to_base64 L (json_to_base64 Json parse (JsText.trim data)))
              = Base64.encode (Buffer_from_hex L hex)).
  { rewrite Ht, json_step_skips_hex by apply starts_with_0x_append.
    unfold hex_to_base64. rewrite starts_with_0x_append.
    cbn [append Js.slice]. rewrite Hhex. apply add_padding_encode. }
  split.
  - destruct Hc as [-> | [-> | ->]]; exact H.
  - exact H.
Qed.

Lemma hex_input_is_sent_as_base64_witness :
  normalize_transaction RefLib.lib string Forms.parse (Some sol)
    (Forms.nbsp ++ " 0x48656c6c6f" ++ Forms.bom)
  = "SGVsbG8=".
Proof.
  apply (proj1 (hex_input_is_sent_as_base64 RefLib.lib string Forms.parse
                  sol (Forms.nbsp ++ " 0x48656c6c6f" ++ Forms.bom) "48656c6c6f"
                  (or_intror (or_introl eq_refl)) eq_refl eq_refl)).
Defined.

(** X14: on NEAR, Solana and Cosmos an encoded transaction that opens with
    a brace or a bracket and parses as JSON is sent as the base64 of its
    text; that base64 text is never taken for hex and gets no padding. *)
Theorem json_input_is_sent_as_base64
  (L : Lib) (Json : Type) (parse : string -> Result Json)
  (c : ChainType) (data : string) (doc : Json) :
  c = near \/ c = sol \/ c = cosmos ->
  orb (Js.startsWith "{" (JsText.trim data)) (Js.startsWith "[" (JsText.trim data)) = true ->
  parse (JsText.trim data) = Ok doc ->
  normalize_transaction L Json parse (Some c) data
  = Base64.encode (Js.TextEncoder_encode (JsText.trim data)).
Proof.
  intros Hc Hopen Hparse.
  assert (H : add_padding (hex_to_base64 L (json_to_base64 Json parse (JsText.trim data)))
              = Base64.encode (Js.TextEncoder_encode (JsText.trim data))).
  { unfold json_to_base64. rewrite Hopen, Hparse.
    unfold hex_to_base64. rewrite (json_text_encoded _ Hopen).
    apply add_padding_encode. }
  destruct Hc as [-> | [-> | ->]]; exact H.
Qed.

Lemma json_input_is_sent_as_base64_witness :
  normalize_transaction RefLib.lib string Forms.parse (Some cosmos)
    (Forms.nbsp ++ "{}" ++ Forms.line_separator)
  = "e30=".
Proof.
  apply (json_input_is_sent_as_base64 RefLib.lib string Forms.parse cosmos
           (Forms.nbsp ++ "{}" ++ Forms.line_separator) "{}");
    [ right; right | | ]; reflexivity.
Defined.

(** X15: an encoded EVM transaction is always sent with "0x" in front:
    the prefix is added when it is missing, text that has it is sent as it
    is, and normalizing twice changes nothing more. *)
Theorem evm_transaction_prefix
  (L : Lib) (Json : Type) (parse : string -> Result Json) (data : string) :
  let sent := normalize_transaction L Json parse (Some evm) data in
  Js.startsWith "0x" sent = true /\
  (Js.startsWith "0x" data = true -> sent = data) /\
  (Js.startsWith "0x" data = false -> sent = "0x" ++ data) /\
  normalize_transaction L Json parse (Some evm) sent = sent.
Proof.
  cbn [normalize_transaction].
  destruct (Js.startsWith "0x" data) eqn:Hp; cbn [negb].
  - rewrite Hp. repeat split; try reflexivity; discriminate.
  - rewrite starts_with_0x_append. repeat split; try reflexivity; discriminate.
Qed.

Lemma evm_transaction_prefix_witness :
  normalize_transaction RefLib.lib string Forms.parse (Some evm) "f86c" = "0xf86c".
Proof.
  apply (proj1 (proj2 (proj2
           (evm_transaction_prefix RefLib.lib string Forms.parse "f86c")))).
  reflexivity.
Defined.

Lemma json_step_cases {Json : Type} (parse : string -> Result Json) (x : string) :
  json_to_base64 Json parse x = x \/
  (orb (Js.startsWith "{" x) (Js.startsWith "[" x) = true /\
   json_to_base64 Json parse x = Base64.encode (Js.TextEncoder_encode x)).
Proof.
  unfold json_to_base64.
  destruct (orb _ _); [ | now left ].
  destruct (parse x); [ now right | now left ].
Qed.

Lemma bytes_empty (x : string) : Js.TextEncoder_encode x = [] -> x = EmptyString.
Proof. destruct x; [ reflexivity | discriminate ]. Qed.

Lemma add_padding_empty (x : string) : add_padding x = EmptyString -> x = EmptyString.
Proof.
  destruct (add_padding_cases x) as [-> | [k ->]]; [ auto | ].
  destruct x; discriminate.
Qed.

Lemma delegate_empty_when
  (L : Lib) (Json : Type) (parse : string -> Result Json) (data : string) :
  Js.startsWith "0x" (JsText.trim data) = true ->
  Js.all_hex (Js.slice 2 (JsText.trim data)) = true ->
  Buffer_from_hex L (Js.slice 2 (JsText.trim data)) = [] ->
  normalize_delegate L Json parse (Some near) data = EmptyString.
Proof.
  intros Hp Hh Hb. cbn [normalize_delegate].
  rewrite (json_step_skips_hex parse _ Hp).
  unfold hex_to_base64. now rewrite Hp, Hh, Hb.
Qed.

(** X16: the check that a delegate action is not blank is made before the
    action is normalized.  On NEAR the action that is sent is empty exactly
    when the text is "0x" followed by hex digits out of which
    [Buffer.from(hex, 'hex')] reads no byte. *)
Theorem delegate_sent_empty
  (L : Lib) (Json : Type) (parse : string -> Result Json) (data : string) :
  let delegateData := JsText.trim data in
  Js.is_empty delegateData = false ->
  (normalize_delegate L Json parse (Some near) data = EmptyString <->
   Js.startsWith "0x" delegateData = true /\
   Js.all_hex (Js.slice 2 delegateData) = true /\
   Buffer_from_hex L (Js.slice 2 delegateData) = []).
Proof.
  intros t Hne. cbn [normalize_delegate]. fold t. split.
  - intros H. apply add_padding_empty in H.
    destruct (json_step_cases parse t) as [Hj | [Hopen Hj]]; rewrite Hj in H.
    + unfold hex_to_base64 in H.
      destruct (Js.startsWith "0x" t) eqn:Hp.
      * destruct (Js.all_hex (Js.slice 2 t)) eqn:Hh.
        -- apply encode_empty in H. now repeat split.
        -- rewrite H in Hne. discriminate Hne.
      * rewrite H in Hne. discriminate Hne.
    + unfold hex_to_base64 in H.
      rewrite (json_text_encoded t Hopen) in H.
      apply encode_empty, bytes_empty in H.
      rewrite H in Hne. discriminate Hne.
  - intros (Hp & Hh & Hb).
    rewrite (json_step_skips_hex parse t Hp).
    unfold hex_to_base64. rewrite Hp, Hh, Hb. reflexivity.
Qed.

Lemma delegate_sent_empty_witness :
  normalize_delegate RefLib.lib string Forms.parse (Some near) (Forms.nbsp ++ "0x")
  = EmptyString.
Proof.
  apply (proj2 (delegate_sent_empty RefLib.lib string Forms.parse
                  (Forms.nbsp ++ "0x") eq_refl)).
  repeat split.
Defined.

(** X17: whether [handleSign] signs directly or asks the customer is
    decided by the wallet alone: whenever a call is made, it creates a
    challenge exactly when the user has a customer id and the wallet
    belongs to that customer, whatever is being signed. *)
Theorem custody_decides_the_call
  (L : Lib) (Json : Type) (parse : string -> Result Json)
  (F : SignForm) (call : ApiCall Json) :
  handleSign L Json parse F = Some (Ok call) ->
  is_challenge Json call =
  match self_custody F with Some _ => true | None => false end.
Proof.
  unfold handleSign.
  destruct (Js.is_empty (selectedWallet F)); [ discriminate | ].
  destruct (form_signType F).
  - destruct (self_custody F); intros [= <-]; reflexivity.
  - destruct (parse (form_typedData F)); [ | discriminate ].
    destruct (self_custody F); intros [= <-]; reflexivity.
  - destruct (inputMode F);
      [ destruct (parse (transactionData F)); [ | discriminate ] | ];
      destruct (self_custody F); intros [= <-]; reflexivity.
  - destruct (Js.is_empty (JsText.trim (transactionData F))); [ discriminate | ].
    destruct (self_custody F); intros [= <-]; reflexivity.
Qed.

Lemma custody_decides_the_call_witness :
  is_challenge string
    (createCustomerSignTransactionChallenge string "customer-1" "wallet-1"
       encoded_mode (EncodedTransaction "SGVsbG8=")) = true.
Proof.
  apply (custody_decides_the_call RefLib.lib string Forms.parse
           Forms.sol_hex_transaction).
  reflexivity.
Defined.

(** X18: [handleSign] makes no call without a selected wallet, with typed
    data or a JSON transaction that does not parse, or with a delegate
    action that is blank. *)
Theorem calls_need_valid_input
  (L : Lib) (Json : Type) (parse : string -> Result Json)
  (F : SignForm) (call : ApiCall Json) :
  handleSign L Json parse F = Some (Ok call) ->
  Js.is_empty (selectedWallet F) = false /\
  (form_signType F = typed_data ->
   exists td, parse (form_typedData F) = Ok td) /\
  (form_signType F = transaction -> inputMode F = json_mode ->
   exists doc, parse (transactionData F) = Ok doc) /\
  (form_signType F = delegate_action ->
   Js.is_empty (JsText.trim (transactionData F)) = false).
Proof.
  unfold handleSign.
  destruct (Js.is_empty (selectedWallet F)); [ discriminate | ].
  intros H. split; [ reflexivity | ].
  destruct (form_signType F); repeat split; try discriminate.
  - intros _. destruct (parse (form_typedData F)) as [td | ]; [ | discriminate H ].
    now exists td.
  - intros _ Hm. rewrite Hm in H.
    destruct (parse (transactionData F)) as [doc | ]; [ | discriminate H ].
    now exists doc.
  - intros _.
    now destruct (Js.is_empty (JsText.trim (transactionData F))).
Qed.

(** A delegate action made of a no-break space, a space and a line
    separator is blank: nothing is sent. *)
Example blank_delegate_makes_no_call :
  handleSign RefLib.lib string Forms.parse Forms.near_blank
  = Some (Throw "Please provide an encoded delegate action (use the builder to generate one)").
Proof. reflexivity. Qed.

Lemma calls_need_valid_input_witness :
  Js.is_empty (JsText.trim (transactionData Forms.near_bare_prefix)) = false.
Proof.
  eapply (proj2 (proj2 (proj2
            (calls_need_valid_input RefLib.lib string Forms.parse
               Forms.near_bare_prefix _ eq_refl)))).
  reflexivity.
Defined.

(** X19: the hex toggle reaches the API only when a message is signed
    directly: for every other kind of signing, and for a message on a
    wallet of the customer, [handleSign] does the same whether the toggle
    is on or off. *)
Theorem hex_toggle_is_sent_for_direct_messages_only
  (L : Lib) (Json : Type) (parse : string -> Result Json)
  (F : SignForm) (b : bool) :
  form_signType F <> message_t \/ self_custody F <> None ->
  handleSign L Json parse (with_form_hex F b) = handleSign L Json parse F.
Proof.
  intros H. destruct F as [w cu wc ch st m hx td im tx].
  unfold with_form_hex, handleSign, self_custody in *. simpl in *.
  destruct (Js.is_empty w); [ reflexivity | ].
  destruct st; try reflexivity.
  destruct H as [H | H]; [ now elim H | ].
  destruct cu as [c | ]; [ | now elim H ].
  destruct wc as [w' | ]; [ | now elim H ].
  destruct (andb _ _); [ reflexivity | now elim H ].
Qed.

Lemma hex_toggle_is_sent_for_direct_messages_only_witness :
  handleSign RefLib.lib string Forms.parse (with_form_hex Forms.custody_message false)
  = handleSign RefLib.lib string Forms.parse Forms.custody_message.
Proof.
  apply (hex_toggle_is_sent_for_direct_messages_only RefLib.lib string Forms.parse
           Forms.custody_message false).
  right. discriminate.
Defined.

(** ** The table of chains *)

Lemma getChainById_listed (c : Chains.ChainInfo) :
  In c Chains.CHAINS -> Chains.getChainById (Chains.id c) = Some c.
Proof.
  intros Hin. simpl in Hin.
  repeat (destruct Hin as [<- | Hin]; [ reflexivity | ]). destruct Hin.
Qed.

Lemma getChainById_none (i : string) :
  Chains.getChainById i = None <-> ~ In i (map Chains.id Chains.CHAINS).
Proof.
  unfold Chains.getChainById. split.
  - intros H Hin. apply in_map_iff in Hin.
    destruct Hin as (c & <- & Hc).
    pose proof (find_none _ _ H c Hc) as Hf. simpl in Hf.
    now rewrite String.eqb_refl in Hf.
  - intros Hn.
    destruct (find _ Chains.CHAINS) as [c | ] eqn:Hf; [ | reflexivity ].
    apply find_some in Hf. destruct Hf as [Hin Heq].
    apply String.eqb_eq in Heq. elim Hn. rewrite <- Heq.
    now apply in_map.
Qed.

(** X20: the ids of the table are distinct: looking up the id of a listed
    chain gives that chain, a lookup that succeeds gives a listed chain
    with the id asked for, and a lookup fails exactly on the ids that are
    not listed. *)
Theorem getChainById_lookup :
  (forall c, In c Chains.CHAINS -> Chains.getChainById (Chains.id c) = Some c) /\
  (forall i c, Chains.getChainById i = Some c ->
               In c Chains.CHAINS /\ Chains.id c = i) /\
  (forall i, Chains.getChainById i = None <->
             ~ In i (map Chains.id Chains.CHAINS)).
Proof.
  split; [ exact getChainById_listed | split; [ | exact getChainById_none ] ].
  intros i c H. unfold Chains.getChainById in H.
  apply find_some in H. destruct H as [Hin Heq].
  split; [ exact Hin | now apply String.eqb_eq ].
Qed.

(** X21: for every listed chain the capability flags follow the kind of
    chain the code branches on: typed data is offered exactly on EVM and
    delegate actions exactly on NEAR, the encoded format is base64 exactly
    for the kinds [handleSign] turns into base64 (NEAR, Solana, Cosmos),
    and it is absent exactly on Bitcoin, the one chain without transaction
    signing. *)
Theorem capability_flags (c : Chains.ChainInfo) :
  In c Chains.CHAINS ->
  Chains.supportsSignTypedData c
  = match Chains.type c with evm => true | _ => false end /\
  Chains.supportsSignDelegateAction c
  = match Chains.type c with near => true | _ => false end /\
  Chains.supportsSignTransaction c
  = match Chains.type c with btc => false | _ => true end /\
  Chains.encodedFormat c
  = match Chains.type c with
    | near | sol | cosmos => Some Chains.base64
    | evm | dot => Some Chains.hex
    | btc => None
    end.
Proof.
  intros Hin. simpl in Hin.
  repeat (destruct Hin as [<- | Hin]; [ repeat split | ]). destruct Hin.
Qed.


Lemma getChainById_lookup_witness :
  Chains.getChainById "NEAR-TESTNET" = Some States.near_testnet.
Proof.
  apply (proj1 getChainById_lookup States.near_testnet).
  simpl. tauto.
Defined.

Lemma capability_flags_witness :
  Chains.supportsSignDelegateAction States.near_testnet = true.
Proof.
  apply (proj1 (proj2 (capability_flags States.near_testnet
                         ltac:(simpl; tauto)))).
Defined.

(** X22: the flags of the front end against the lists the back end
    answers with: every listed chain is in the back end's list for
    messages; it is in the lists for typed data and for delegate actions
    exactly when its flag is set; and it is in the list for transactions,
    although the flag of the front end is off for Bitcoin. *)
Theorem flags_and_supported_types (c : Chains.ChainInfo) :
  In c Chains.CHAINS ->
  SupportedTypes.lists (Chains.id c) SupportedTypes.message = true /\
  SupportedTypes.lists (Chains.id c) SupportedTypes.typedData
  = Chains.supportsSignTypedData c /\
  SupportedTypes.lists (Chains.id c) SupportedTypes.delegateAction
  = Chains.supportsSignDelegateAction c /\
  SupportedTypes.lists (Chains.id c) SupportedTypes.transaction = true /\
  (Chains.supportsSignTransaction c = false <-> Chains.type c = btc).
Proof.
  intros Hin. simpl in Hin.
  repeat (destruct Hin as [<- | Hin];
          [ repeat split; try reflexivity; discriminate | ]).
  destruct Hin.
Qed.

Lemma flags_and_supported_types_witness :
  SupportedTypes.lists "NEAR-TESTNET" SupportedTypes.delegateAction = true.
Proof.
  apply (proj1 (proj2 (proj2 (flags_and_supported_types States.near_testnet
                                ltac:(simpl; tauto))))).
Defined.

(** ** The effect around [verify] *)

(** X23: with a result and a selected wallet, the effect runs [verify]
    with the kind of the chain whose id is the blockchain of the wallet;
    when no listed chain has that id the effect does nothing, so no
    outcome is shown for such a wallet. *)
Theorem effect_needs_a_listed_chain
  (L : Lib) (S : Page.State) (res : SignResult.t) (w : Page.WalletRow) :
  Page.result S = Some res ->
  Page.selectedWalletData S = Some w ->
  (~ In (Page.blockchain w) (map Chains.id Chains.CHAINS) ->
   Page.verification_effect L S = ([], Ok tt)) /\
  (forall c, In c Chains.CHAINS -> Chains.id c = Page.blockchain w ->
   Page.verification_effect L S =
   verify L (mkEnv res (Chains.type c)
                   (Wallet.mk (Page.address w) (Page.publicKey w))
                   (Page.signType S) (Page.message S) (Page.typedData S)
                   (Page.encodedByHex S))).
Proof.
  intros Hres Hw. unfold Page.verification_effect, Page.chain.
  rewrite Hres, Hw.
  split.
  - intros Hn. now rewrite (proj2 (getChainById_none _) Hn).
  - intros c Hin Hid. now rewrite <- Hid, (getChainById_listed c Hin).
Qed.

Lemma effect_needs_a_listed_chain_witness :
  Page.verification_effect RefLib.lib States.atom_testnet_wallet = ([], Ok tt).
Proof.
  refine (proj1 (effect_needs_a_listed_chain RefLib.lib States.atom_testnet_wallet
                   _ _ eq_refl eq_refl) _).
  simpl. intros H. repeat (destruct H as [H | H]; [ discriminate H | ]). exact H.
Defined.

(** ** The signing routes *)

(** X24: the message and delegate-action routes answer 400 exactly when
    the wallet id or the payload is missing or empty, and then neither the
    secret is encrypted nor the custody service called; in every other
    case the secret is encrypted first and the answer is 200 or 500. *)
Theorem routes_validate_first
  (Json : Type) (S : Backend.Services Json)
  (walletId payload : option string) (encodedByHex : option bool) :
  let complete := andb (Js.truthy walletId) (Js.truthy payload) in
  let checked (r : list (Backend.Call) * Backend.Response Json) :=
    if complete
    then hd_error (fst r) = Some Backend.Call_generateEncryptedSecret /\
         (Backend.status Json (snd r) = 200 \/ Backend.status Json (snd r) = 500)
    else fst r = [] /\ Backend.status Json (snd r) = 400 in
  checked (Backend.post_message Json S walletId payload encodedByHex) /\
  checked (Backend.post_delegate_action Json S walletId payload).
Proof.
  intros complete checked. subst complete checked.
  unfold Backend.post_message, Backend.post_delegate_action.
  destruct (Js.truthy walletId), (Js.truthy payload); cbn [andb orb negb];
    try (split; split; reflexivity).
  destruct (Backend.generateEncryptedSecret Json S) as [secret | f].
  - destruct (Backend.client_signMessage Json S _ _ _ _),
      (Backend.client_signDelegateAction Json S _ _ _);
      cbn [fst snd hd_error Backend.status]; repeat split; auto.
  - cbn [fst snd hd_error Backend.status]. repeat split; auto.
Qed.

(** X25: two inputs pass the checks of the page and are refused by the
    back end.  On a wallet of the organization, a NEAR delegate action
    that is "0x" followed by hex digits holding no byte is not blank, is
    normalized to the empty string and sent, and the route answers 400
    without calling the custody service; so does the message route for the
    empty message that the builder writes when the hex toggle is on and
    nothing is typed. *)
Theorem page_check_passes_route_refuses
  (L : Lib) (Json : Type) (parse : string -> Result Json)
  (S : Backend.Services Json) (F : SignForm) :
  Js.is_empty (selectedWallet F) = false ->
  self_custody F = None ->
  (form_signType F = delegate_action ->
   form_chain F = Some near ->
   Js.is_empty (JsText.trim (transactionData F)) = false ->
   Js.startsWith "0x" (JsText.trim (transactionData F)) = true ->
   Js.all_hex (Js.slice 2 (JsText.trim (transactionData F))) = true ->
   Buffer_from_hex L (Js.slice 2 (JsText.trim (transactionData F))) = [] ->
   handleSign L Json parse F
   = Some (Ok (signDelegateAction Json (selectedWallet F) EmptyString)) /\
   Backend.serve Json S (signDelegateAction Json (selectedWallet F) EmptyString)
   = Some ([], Backend.mkResponse Json 400
                 (Backend.Error Json "walletId and delegateAction are required"))) /\
  (form_signType F = message_t ->
   form_message F = builder_message EmptyString true ->
   handleSign L Json parse F
   = Some (Ok (signMessage Json (selectedWallet F) EmptyString (form_encodedByHex F))) /\
   Backend.serve Json S
     (signMessage Json (selectedWallet F) EmptyString (form_encodedByHex F))
   = Some ([], Backend.mkResponse Json 400
                 (Backend.Error Json "walletId and message are required"))).
Proof.
  intros Hw Hc. split.
  - intros Ht Hn Hblank Hp Hh Hb. split.
    + unfold handleSign. rewrite Hw, Ht, Hblank, Hc, Hn.
      now rewrite (delegate_empty_when L Json parse _ Hp Hh Hb).
    + cbn [Backend.serve]. unfold Backend.post_delegate_action.
      cbn [Js.truthy Js.is_empty negb orb]. now rewrite orb_true_r.
  - intros Ht Hm. split.
    + unfold handleSign. rewrite Hw, Ht, Hc, Hm. reflexivity.
    + cbn [Backend.serve]. unfold Backend.post_message.
      cbn [Js.truthy Js.is_empty negb orb]. now rewrite orb_true_r.
Qed.

Lemma page_check_passes_route_refuses_witness :
  handleSign RefLib.lib string Forms.parse Forms.near_bare_prefix
  = Some (Ok (signDelegateAction string "wallet-1" EmptyString)) /\
  Backend.serve string Forms.services (signDelegateAction string "wallet-1" EmptyString)
  = Some ([], Backend.mkResponse string 400
                (Backend.Error string "walletId and delegateAction are required")).
Proof.
  apply (proj1 (page_check_passes_route_refuses RefLib.lib string Forms.parse
                  Forms.services Forms.near_bare_prefix eq_refl eq_refl));
    reflexivity.
Defined.
